(** * ShaderProgram: a shallow embedding of [src/ShaderProgram.ts]

    The class wraps a WebGL context: it compiles and links a program,
    registers named uniforms and vertex buffers behind property accessors,
    derives a projection matrix from a camera record, runs a frame loop on
    [requestAnimationFrame] and releases everything in [destroy].

    The embedding threads one [World] (the instance fields together with the
    part of the browser the class talks to) through a small monad that also
    collects the calls made on the WebGL context and on the DOM, and that
    carries JavaScript exceptions.  The state survives a throw, as it does in
    JavaScript. *)

From Stdlib Require Import ZArith List String Bool Reals Lra.
From Stdlib Require PrimFloat Uint63.
From Corelib Require FloatAxioms.
Import PrimFloat.PrimFloatNotationsInternalA.
Number Notation PrimFloat.float PrimFloat.parser PrimFloat.printer : float_scope.
Import ListNotations.
Local Open Scope string_scope.
Local Open Scope list_scope.

(** ** JavaScript numbers

    The class computes with [number]s in four places only: the camera
    arithmetic of [setProjection], the layout arithmetic of [resize] and
    [mousemove], the clock arithmetic of [_update] and [length / 3] in the
    [position] setter.  The operations it uses are collected in one
    interface, with two implementations: IEEE 754 doubles (what the engine
    runs) and the real numbers (what the arithmetic approximates). *)

Class JSNumber (num : Type) : Type := {
  of_Z : Z -> num;
  num_add : num -> num -> num;
  num_sub : num -> num -> num;
  num_mul : num -> num -> num;
  num_div : num -> num -> num;
  num_gtb : num -> num -> bool;
  Math_PI : num;
  Math_tan : num -> num
}.

Declare Scope js_scope.
Delimit Scope js_scope with js.
Infix "+" := num_add : js_scope.
Infix "-" := num_sub : js_scope.
Infix "*" := num_mul : js_scope.
Infix "/" := num_div : js_scope.
Infix ">?" := num_gtb (at level 70, no associativity) : js_scope.

(** The literal [0.5]: both implementations compute [1 / 2] exactly. *)
Definition lit_0_5 {num} `{JSNumber num} : num := (of_Z 1 / of_Z 2)%js.

(** Integer literals and array lengths as doubles. *)
Definition float_of_Z (z : Z) : PrimFloat.float :=
  match z with
  | Z0 => PrimFloat.of_uint63 (Uint63.of_Z 0)
  | Zpos _ => PrimFloat.of_uint63 (Uint63.of_Z z)
  | Zneg p => PrimFloat.opp (PrimFloat.of_uint63 (Uint63.of_Z (Zpos p)))
  end.

(** [Math.PI] is the double nearest to pi. *)
Definition float_PI : PrimFloat.float := 0x1.921fb54442d18p+1%float.

(** ECMAScript leaves [Math.tan] implementation-approximated, so the doubles
    take the engine's tangent as an argument. *)
Definition IEEE_double (engine_tan : PrimFloat.float -> PrimFloat.float)
  : JSNumber PrimFloat.float :=
  {| of_Z := float_of_Z;
     num_add := PrimFloat.add;
     num_sub := PrimFloat.sub;
     num_mul := PrimFloat.mul;
     num_div := PrimFloat.div;
     num_gtb := fun x y => PrimFloat.ltb y x;
     Math_PI := float_PI;
     Math_tan := engine_tan |}.

(** A tangent for the executable runs: Lambert's continued fraction
    [x / (1 - x^2 / (3 - x^2 / (5 - ...)))], cut at a fixed depth. *)
Fixpoint lambert (depth : nat) (k : PrimFloat.float) (x2 : PrimFloat.float)
  : PrimFloat.float :=
  match depth with
  | O => k
  | S d => PrimFloat.sub k (PrimFloat.div x2 (lambert d (PrimFloat.add k 2%float) x2))
  end.

Definition lambert_tan (x : PrimFloat.float) : PrimFloat.float :=
  PrimFloat.div x (lambert 16 1%float (PrimFloat.mul x x)).

#[export] Instance double : JSNumber PrimFloat.float := IEEE_double lambert_tan.

Definition real_gtb (x y : R) : bool := if Rlt_dec y x then true else false.

#[export] Instance real : JSNumber R :=
  {| of_Z := IZR;
     num_add := Rplus;
     num_sub := Rminus;
     num_mul := Rmult;
     num_div := Rdiv;
     num_gtb := real_gtb;
     Math_PI := PI;
     Math_tan := tan |}.

(** ** JavaScript values and objects *)

(** A [Record<string, V>]: string keys in insertion order, each key once.
    (JavaScript lists keys that are array indices first; the names of
    uniforms and buffers are GLSL identifiers, which are not.) *)
Definition obj (V : Type) : Type := list (string * V).

Fixpoint obj_get {V} (k : string) (o : obj V) : option V :=
  match o with
  | [] => None
  | (k', v) :: rest => if String.eqb k k' then Some v else obj_get k rest
  end.

(** [o[k] = v]: an existing key keeps its place, a new key goes last. *)
Fixpoint obj_set {V} (k : string) (v : V) (o : obj V) : obj V :=
  match o with
  | [] => [(k, v)]
  | (k', v') :: rest =>
      if String.eqb k k' then (k', v) :: rest else (k', v') :: obj_set k v rest
  end.

(** [o[k].field = ...]: the record under an existing key changed in place.
    The class makes such an assignment only after it has looked the key up;
    for an absent key nothing happens here. *)
Fixpoint obj_update {V} (k : string) (f : V -> V) (o : obj V) : obj V :=
  match o with
  | [] => []
  | (k', v) :: rest =>
      if String.eqb k k' then (k', f v) :: rest else (k', v) :: obj_update k f rest
  end.

Definition obj_keys {V} (o : obj V) : list string := map fst o.
Definition obj_values {V} (o : obj V) : list V := map snd o.

(** [{ ...base, ...over }] *)
Definition obj_spread {V} (base over : obj V) : obj V :=
  fold_left (fun acc kv => obj_set (fst kv) (snd kv) acc) over base.

Definition mem (k : string) (l : list string) : bool :=
  existsb (String.eqb k) l.
Arguments mem : simpl never.

(** An optional field of the options: its value when given, else the
    default that the spread would leave. *)
Definition or_default {A} (o : option A) (d : A) : A :=
  match o with Some a => a | None => d end.

Definition handle : Type := nat.

Inductive uniform_type : Type :=
| t_int | t_float | t_vec2 | t_vec3 | t_vec4 | t_mat2 | t_mat3 | t_mat4.

Inductive shader_kind : Type := VERTEX_SHADER | FRAGMENT_SHADER.
Inductive capability : Type := BLEND | CULL_FACE | DEPTH_TEST.
Inductive texture_parameter : Type :=
| TEXTURE_MIN_FILTER_LINEAR | TEXTURE_MAG_FILTER_LINEAR
| TEXTURE_WRAP_S_CLAMP_TO_EDGE | TEXTURE_WRAP_T_CLAMP_TO_EDGE.
Inductive window_event : Type := ev_resize | ev_mousemove.

Definition window_event_eqb (a b : window_event) : bool :=
  match a, b with
  | ev_resize, ev_resize | ev_mousemove, ev_mousemove => true
  | _, _ => false
  end.

(** What a [throw] carries: the [Error]s the class raises itself, and the
    [TypeError] of reading a property of [undefined]. *)
Inductive exn : Type :=
| Error (message : string)
| TypeError (message : string).

(** The accessor objects [this.uniforms] and [this.buffers]: the names that
    [Object.defineProperty] gave a getter and a setter, and the plain
    properties that an assignment to any other name creates. *)
Record Props (V : Type) : Type := {
  accessors : list string;
  own : obj V
}.
Arguments accessors {V}.
Arguments own {V}.
Arguments Build_Props {V}.

Section Model.
Context {num : Type}.

(** [number | number[]], the type of a uniform's value. *)
Inductive value : Type :=
| VNum (x : num)
| VArr (xs : list num).

(** [arr[i]] after [const arr = value as number[]]: the cast does nothing at
    run time, so indexing a number gives [undefined], here [None]. *)
Definition index (v : value) (i : nat) : option num :=
  match v with
  | VNum _ => None
  | VArr xs => nth_error xs i
  end.

(** ** The interfaces of the source *)

(** [location] is [None] for an absent or [null] location. *)
Record UniformConfig : Type := {
  u_type : uniform_type;
  u_value : value;
  u_location : option handle
}.

Record BufferConfig : Type := {
  b_size : num;
  b_data : list num;
  b_buffer : option handle
}.

Record CameraConfig : Type := {
  fov : num;
  near : num;
  far : num;
  c_aspect : num;
  z : num;
  perspective : bool
}.

(** [Partial<CameraConfig>] *)
Record PartialCamera : Type := {
  p_fov : option num;
  p_near : option num;
  p_far : option num;
  p_aspect : option num;
  p_z : option num;
  p_perspective : option bool
}.

Record TimeData : Type := {
  start : num;
  old : num
}.

(** What user code can do with the instance it is handed: the public
    methods and the two accessor objects.  The [onUpdate] and [onResize]
    callbacks are bound to the instance, so they are sequences of these. *)
Inductive api : Type :=
| api_destroy
| api_uniforms_set (name : string) (v : value)
| api_buffers_set (name : string) (data : list num)
| api_setBuffer (name : option string) (data : option (list num)).

Record ShaderProgramOptions : Type := {
  opt_antialias : option bool;
  opt_depthTest : option bool;
  opt_mousemove : option bool;
  opt_autosize : option bool;
  opt_vertex : option string;
  opt_fragment : option string;
  opt_uniforms : option (obj UniformConfig);
  opt_buffers : option (obj BufferConfig);
  opt_camera : option PartialCamera;
  opt_texture : option string;
  opt_onUpdate : option (num -> list api);
  opt_onResize : option (num -> num -> num -> list api)
}.

(** ** Calls on the WebGL context and on the DOM

    Every call the class makes is recorded with its arguments; a call that
    returns something the class uses is recorded with what it returned.
    Constant arguments ([gl.ARRAY_BUFFER], [gl.FLOAT], [false], ...) are
    part of the constructor's name or left out. *)
Inductive call : Type :=
| gl_createShader (type : shader_kind) (ret : option handle)
| gl_shaderSource (shader : handle) (source : string)
| gl_compileShader (shader : handle)
| gl_getShaderParameter_COMPILE_STATUS (shader : handle) (ret : bool)
| gl_getShaderInfoLog (shader : handle) (ret : option string)
| gl_deleteShader (shader : handle)
| gl_createProgram (ret : option handle)
| gl_attachShader (prog shader : handle)
| gl_linkProgram (prog : handle)
| gl_getProgramParameter_LINK_STATUS (prog : handle) (ret : bool)
| gl_getProgramInfoLog (prog : handle) (ret : option string)
| gl_deleteProgram (prog : handle)
| gl_useProgram (prog : handle)
| gl_getUniformLocation (prog : option handle) (name : string) (ret : option handle)
| gl_uniform1i (location : handle) (v : value)
| gl_uniform1f (location : handle) (v : value)
| gl_uniform2f (location : handle) (v0 v1 : option num)
| gl_uniform3f (location : handle) (v0 v1 v2 : option num)
| gl_uniform4f (location : handle) (v0 v1 v2 v3 : option num)
| gl_uniformMatrix2fv (location : handle) (v : value)
| gl_uniformMatrix3fv (location : handle) (v : value)
| gl_uniformMatrix4fv (location : handle) (v : value)
| gl_getAttribLocation (prog : option handle) (name : string) (ret : Z)
| gl_createBuffer (ret : option handle)
| gl_bindBuffer_ARRAY_BUFFER (buffer : option handle)
| gl_enableVertexAttribArray (idx : Z)
| gl_vertexAttribPointer (idx : Z) (size : num)
| gl_bufferData_ARRAY_BUFFER (float32 : list num)
| gl_deleteBuffer (buffer : handle)
| gl_createTexture (ret : option handle)
| gl_bindTexture_TEXTURE_2D (texture : handle)
| gl_texImage2D_pixel
| gl_texImage2D_image (src : string)
| gl_texParameteri (p : texture_parameter)
| gl_deleteTexture (texture : handle)
| gl_enable (cap : capability)
| gl_disable (cap : capability)
| gl_blendFunc_SRC_ALPHA_ONE
| gl_viewport (w h : num)
| gl_clearColor
| gl_clear_COLOR_BUFFER_BIT
| gl_drawArrays_POINTS (n : num)
| canvas_getContext_webgl (antialias : bool) (ret : bool)
| canvas_set_size (w h style_w style_h : num)
| holder_appendChild
| parentNode_removeChild
| window_addEventListener (ev : window_event)
| window_removeEventListener (ev : window_event)
| requestAnimationFrame (ret : nat)
| cancelAnimationFrame (id : nat)
| image_set_src (src : string).

(** ** The world *)

(** The fields of the instance.  [program] and [texture] are [None] until
    [createProgram] and [createTexture] have assigned them.  A handler field
    is [true] when it holds a function and [false] when it holds [null]. *)
Record ShaderProgram : Type := {
  count : num;
  camera : CameraConfig;
  onUpdate : num -> list api;
  onResize : num -> num -> num -> list api;
  data_uniforms : obj UniformConfig;
  data_buffers : obj BufferConfig;
  uniforms : Props value;
  buffers : Props (list num);
  width : num;
  height : num;
  aspect : num;
  program : option handle;
  texture : option handle;
  time : TimeData;
  animationFrameId : option nat;
  resizeHandler : bool;
  mousemoveHandler : bool
}.

(** How the browser and the driver answer: fixed for a run. *)
Record Browser : Type := {
  webgl_supported : bool;
  alloc_ok : handle -> bool;
  compile_status : shader_kind -> string -> bool;
  shader_info_log : shader_kind -> string -> option string;
  link_status : string -> string -> bool;
  program_info_log : string -> string -> option string;
  uniform_active : string -> bool;
  attrib_location : string -> Z;
  performance_now : nat -> num
}.

(** The state of the browser that the class changes or reads: the next
    object and frame numbers, how often the clock was read, the buffer bound
    to [gl.ARRAY_BUFFER], the frame requests not yet run or cancelled, the
    listeners on [window], whether the canvas has a parent, and the layout
    of the holder. *)
Record Page : Type := {
  next_handle : handle;
  next_frame : nat;
  now_calls : nat;
  ARRAY_BUFFER_BINDING : option handle;
  frames : list nat;
  listeners : list window_event;
  canvas_parentNode : bool;
  offsetWidth : num;
  offsetHeight : num;
  devicePixelRatio : num
}.

Record World : Type := {
  this : ShaderProgram;
  page : Page;
  browser : Browser
}.

Definition set_count v (t : ShaderProgram) : ShaderProgram :=
  {| count := v; camera := camera t; onUpdate := onUpdate t;
     onResize := onResize t; data_uniforms := data_uniforms t;
     data_buffers := data_buffers t; uniforms := uniforms t;
     buffers := buffers t; width := width t; height := height t;
     aspect := aspect t; program := program t; texture := texture t;
     time := time t; animationFrameId := animationFrameId t;
     resizeHandler := resizeHandler t;
     mousemoveHandler := mousemoveHandler t |}.
Definition set_camera v (t : ShaderProgram) : ShaderProgram :=
  {| count := count t; camera := v; onUpdate := onUpdate t;
     onResize := onResize t; data_uniforms := data_uniforms t;
     data_buffers := data_buffers t; uniforms := uniforms t;
     buffers := buffers t; width := width t; height := height t;
     aspect := aspect t; program := program t; texture := texture t;
     time := time t; animationFrameId := animationFrameId t;
     resizeHandler := resizeHandler t;
     mousemoveHandler := mousemoveHandler t |}.
Definition set_data_uniforms v (t : ShaderProgram) : ShaderProgram :=
  {| count := count t; camera := camera t; onUpdate := onUpdate t;
     onResize := onResize t; data_uniforms := v;
     data_buffers := data_buffers t; uniforms := uniforms t;
     buffers := buffers t; width := width t; height := height t;
     aspect := aspect t; program := program t; texture := texture t;
     time := time t; animationFrameId := animationFrameId t;
     resizeHandler := resizeHandler t;
     mousemoveHandler := mousemoveHandler t |}.
Definition set_data_buffers v (t : ShaderProgram) : ShaderProgram :=
  {| count := count t; camera := camera t; onUpdate := onUpdate t;
     onResize := onResize t; data_uniforms := data_uniforms t;
     data_buffers := v; uniforms := uniforms t; buffers := buffers t;
     width := width t; height := height t; aspect := aspect t;
     program := program t; texture := texture t; time := time t;
     animationFrameId := animationFrameId t;
     resizeHandler := resizeHandler t;
     mousemoveHandler := mousemoveHandler t |}.
Definition set_uniforms v (t : ShaderProgram) : ShaderProgram :=
  {| count := count t; camera := camera t; onUpdate := onUpdate t;
     onResize := onResize t; data_uniforms := data_uniforms t;
     data_buffers := data_buffers t; uniforms := v; buffers := buffers t;
     width := width t; height := height t; aspect := aspect t;
     program := program t; texture := texture t; time := time t;
     animationFrameId := animationFrameId t;
     resizeHandler := resizeHandler t;
     mousemoveHandler := mousemoveHandler t |}.
Definition set_buffers v (t : ShaderProgram) : ShaderProgram :=
  {| count := count t; camera := camera t; onUpdate := onUpdate t;
     onResize := onResize t; data_uniforms := data_uniforms t;
     data_buffers := data_buffers t; uniforms := uniforms t; buffers := v;
     width := width t; height := height t; aspect := aspect t;
     program := program t; texture := texture t; time := time t;
     animationFrameId := animationFrameId t;
     resizeHandler := resizeHandler t;
     mousemoveHandler := mousemoveHandler t |}.
Definition set_width v (t : ShaderProgram) : ShaderProgram :=
  {| count := count t; camera := camera t; onUpdate := onUpdate t;
     onResize := onResize t; data_uniforms := data_uniforms t;
     data_buffers := data_buffers t; uniforms := uniforms t;
     buffers := buffers t; width := v; height := height t;
     aspect := aspect t; program := program t; texture := texture t;
     time := time t; animationFrameId := animationFrameId t;
     resizeHandler := resizeHandler t;
     mousemoveHandler := mousemoveHandler t |}.
Definition set_height v (t : ShaderProgram) : ShaderProgram :=
  {| count := count t; camera := camera t; onUpdate := onUpdate t;
     onResize := onResize t; data_uniforms := data_uniforms t;
     data_buffers := data_buffers t; uniforms := uniforms t;
     buffers := buffers t; width := width t; height := v; aspect := aspect t;
     program := program t; texture := texture t; time := time t;
     animationFrameId := animationFrameId t;
     resizeHandler := resizeHandler t;
     mousemoveHandler := mousemoveHandler t |}.
Definition set_aspect v (t : ShaderProgram) : ShaderProgram :=
  {| count := count t; camera := camera t; onUpdate := onUpdate t;
     onResize := onResize t; data_uniforms := data_uniforms t;
     data_buffers := data_buffers t; uniforms := uniforms t;
     buffers := buffers t; width := width t; height := height t; aspect := v;
     program := program t; texture := texture t; time := time t;
     animationFrameId := animationFrameId t;
     resizeHandler := resizeHandler t;
     mousemoveHandler := mousemoveHandler t |}.
Definition set_program v (t : ShaderProgram) : ShaderProgram :=
  {| count := count t; camera := camera t; onUpdate := onUpdate t;
     onResize := onResize t; data_uniforms := data_uniforms t;
     data_buffers := data_buffers t; uniforms := uniforms t;
     buffers := buffers t; width := width t; height := height t;
     aspect := aspect t; program := v; texture := texture t; time := time t;
     animationFrameId := animationFrameId t;
     resizeHandler := resizeHandler t;
     mousemoveHandler := mousemoveHandler t |}.
Definition set_texture v (t : ShaderProgram) : ShaderProgram :=
  {| count := count t; camera := camera t; onUpdate := onUpdate t;
     onResize := onResize t; data_uniforms := data_uniforms t;
     data_buffers := data_buffers t; uniforms := uniforms t;
     buffers := buffers t; width := width t; height := height t;
     aspect := aspect t; program := program t; texture := v; time := time t;
     animationFrameId := animationFrameId t;
     resizeHandler := resizeHandler t;
     mousemoveHandler := mousemoveHandler t |}.
Definition set_time v (t : ShaderProgram) : ShaderProgram :=
  {| count := count t; camera := camera t; onUpdate := onUpdate t;
     onResize := onResize t; data_uniforms := data_uniforms t;
     data_buffers := data_buffers t; uniforms := uniforms t;
     buffers := buffers t; width := width t; height := height t;
     aspect := aspect t; program := program t; texture := texture t;
     time := v; animationFrameId := animationFrameId t;
     resizeHandler := resizeHandler t;
     mousemoveHandler := mousemoveHandler t |}.
Definition set_animationFrameId v (t : ShaderProgram) : ShaderProgram :=
  {| count := count t; camera := camera t; onUpdate := onUpdate t;
     onResize := onResize t; data_uniforms := data_uniforms t;
     data_buffers := data_buffers t; uniforms := uniforms t;
     buffers := buffers t; width := width t; height := height t;
     aspect := aspect t; program := program t; texture := texture t;
     time := time t; animationFrameId := v; resizeHandler := resizeHandler t;
     mousemoveHandler := mousemoveHandler t |}.
Definition set_resizeHandler v (t : ShaderProgram) : ShaderProgram :=
  {| count := count t; camera := camera t; onUpdate := onUpdate t;
     onResize := onResize t; data_uniforms := data_uniforms t;
     data_buffers := data_buffers t; uniforms := uniforms t;
     buffers := buffers t; width := width t; height := height t;
     aspect := aspect t; program := program t; texture := texture t;
     time := time t; animationFrameId := animationFrameId t;
     resizeHandler := v; mousemoveHandler := mousemoveHandler t |}.
Definition set_mousemoveHandler v (t : ShaderProgram) : ShaderProgram :=
  {| count := count t; camera := camera t; onUpdate := onUpdate t;
     onResize := onResize t; data_uniforms := data_uniforms t;
     data_buffers := data_buffers t; uniforms := uniforms t;
     buffers := buffers t; width := width t; height := height t;
     aspect := aspect t; program := program t; texture := texture t;
     time := time t; animationFrameId := animationFrameId t;
     resizeHandler := resizeHandler t; mousemoveHandler := v |}.

Definition set_next_handle v (p : Page) : Page :=
  {| next_handle := v; next_frame := next_frame p; now_calls := now_calls p;
     ARRAY_BUFFER_BINDING := ARRAY_BUFFER_BINDING p; frames := frames p;
     listeners := listeners p; canvas_parentNode := canvas_parentNode p;
     offsetWidth := offsetWidth p; offsetHeight := offsetHeight p;
     devicePixelRatio := devicePixelRatio p |}.
Definition set_next_frame v (p : Page) : Page :=
  {| next_handle := next_handle p; next_frame := v; now_calls := now_calls p;
     ARRAY_BUFFER_BINDING := ARRAY_BUFFER_BINDING p; frames := frames p;
     listeners := listeners p; canvas_parentNode := canvas_parentNode p;
     offsetWidth := offsetWidth p; offsetHeight := offsetHeight p;
     devicePixelRatio := devicePixelRatio p |}.
Definition set_now_calls v (p : Page) : Page :=
  {| next_handle := next_handle p; next_frame := next_frame p;
     now_calls := v; ARRAY_BUFFER_BINDING := ARRAY_BUFFER_BINDING p;
     frames := frames p; listeners := listeners p;
     canvas_parentNode := canvas_parentNode p; offsetWidth := offsetWidth p;
     offsetHeight := offsetHeight p;
     devicePixelRatio := devicePixelRatio p |}.
Definition set_ARRAY_BUFFER_BINDING v (p : Page) : Page :=
  {| next_handle := next_handle p; next_frame := next_frame p;
     now_calls := now_calls p; ARRAY_BUFFER_BINDING := v; frames := frames p;
     listeners := listeners p; canvas_parentNode := canvas_parentNode p;
     offsetWidth := offsetWidth p; offsetHeight := offsetHeight p;
     devicePixelRatio := devicePixelRatio p |}.
Definition set_frames v (p : Page) : Page :=
  {| next_handle := next_handle p; next_frame := next_frame p;
     now_calls := now_calls p;
     ARRAY_BUFFER_BINDING := ARRAY_BUFFER_BINDING p; frames := v;
     listeners := listeners p; canvas_parentNode := canvas_parentNode p;
     offsetWidth := offsetWidth p; offsetHeight := offsetHeight p;
     devicePixelRatio := devicePixelRatio p |}.
Definition set_listeners v (p : Page) : Page :=
  {| next_handle := next_handle p; next_frame := next_frame p;
     now_calls := now_calls p;
     ARRAY_BUFFER_BINDING := ARRAY_BUFFER_BINDING p; frames := frames p;
     listeners := v; canvas_parentNode := canvas_parentNode p;
     offsetWidth := offsetWidth p; offsetHeight := offsetHeight p;
     devicePixelRatio := devicePixelRatio p |}.
Definition set_canvas_parentNode v (p : Page) : Page :=
  {| next_handle := next_handle p; next_frame := next_frame p;
     now_calls := now_calls p;
     ARRAY_BUFFER_BINDING := ARRAY_BUFFER_BINDING p; frames := frames p;
     listeners := listeners p; canvas_parentNode := v;
     offsetWidth := offsetWidth p; offsetHeight := offsetHeight p;
     devicePixelRatio := devicePixelRatio p |}.
Definition set_offsetWidth v (p : Page) : Page :=
  {| next_handle := next_handle p; next_frame := next_frame p;
     now_calls := now_calls p;
     ARRAY_BUFFER_BINDING := ARRAY_BUFFER_BINDING p; frames := frames p;
     listeners := listeners p; canvas_parentNode := canvas_parentNode p;
     offsetWidth := v; offsetHeight := offsetHeight p;
     devicePixelRatio := devicePixelRatio p |}.
Definition set_offsetHeight v (p : Page) : Page :=
  {| next_handle := next_handle p; next_frame := next_frame p;
     now_calls := now_calls p;
     ARRAY_BUFFER_BINDING := ARRAY_BUFFER_BINDING p; frames := frames p;
     listeners := listeners p; canvas_parentNode := canvas_parentNode p;
     offsetWidth := offsetWidth p; offsetHeight := v;
     devicePixelRatio := devicePixelRatio p |}.
Definition set_devicePixelRatio v (p : Page) : Page :=
  {| next_handle := next_handle p; next_frame := next_frame p;
     now_calls := now_calls p;
     ARRAY_BUFFER_BINDING := ARRAY_BUFFER_BINDING p; frames := frames p;
     listeners := listeners p; canvas_parentNode := canvas_parentNode p;
     offsetWidth := offsetWidth p; offsetHeight := offsetHeight p;
     devicePixelRatio := v |}.

Definition on_this (f : ShaderProgram -> ShaderProgram) (w : World) : World :=
  {| this := f (this w); page := page w; browser := browser w |}.

Definition on_page (f : Page -> Page) (w : World) : World :=
  {| this := this w; page := f (page w); browser := browser w |}.

(** ** The monad

    A computation runs from a world to the calls it made, the world it left
    and either the exception it threw or its result. *)
Record Run (A : Type) : Type := {
  calls : list call;
  world : World;
  result : exn + A
}.
Arguments calls {A}.
Arguments world {A}.
Arguments result {A}.
Arguments Build_Run {A}.

Definition M (A : Type) : Type := World -> Run A.

Definition ret {A} (a : A) : M A :=
  fun w => {| calls := []; world := w; result := inr a |}.

Definition bind {A B} (m : M A) (k : A -> M B) : M B :=
  fun w =>
    let r := m w in
    match result r with
    | inl e => {| calls := calls r; world := world r; result := inl e |}
    | inr a =>
        let r' := k a (world r) in
        {| calls := calls r ++ calls r'; world := world r'; result := result r' |}
    end.

Definition throw {A} (e : exn) : M A :=
  fun w => {| calls := []; world := w; result := inl e |}.

Definition emit (c : call) : M unit :=
  fun w => {| calls := [c]; world := w; result := inr tt |}.

Definition get {A} (f : World -> A) : M A :=
  fun w => {| calls := []; world := w; result := inr (f w) |}.

Definition modify (f : World -> World) : M unit :=
  fun w => {| calls := []; world := f w; result := inr tt |}.

End Model.

Arguments value : clear implicits.
Arguments UniformConfig : clear implicits.
Arguments BufferConfig : clear implicits.
Arguments CameraConfig : clear implicits.
Arguments PartialCamera : clear implicits.
Arguments TimeData : clear implicits.
Arguments api : clear implicits.
Arguments ShaderProgramOptions : clear implicits.
Arguments call : clear implicits.
Arguments ShaderProgram : clear implicits.
Arguments Browser : clear implicits.
Arguments Page : clear implicits.
Arguments World : clear implicits.
Arguments Run : clear implicits.
Arguments calls {num A}.
Arguments world {num A}.
Arguments result {num A}.
Arguments Build_Run {num A}.
Arguments M : clear implicits.

Notation "x <- m ;; k" := (bind m (fun x => k))
  (at level 61, m at next level, right associativity).
Notation "m ;; k" := (bind m (fun _ => k))
  (at level 61, right associativity).

(** ** The class *)

Section Class.
Context {num : Type} {NUM : JSNumber num}.

Fixpoint forEach {A} (l : list A) (f : A -> M num unit) : M num unit :=
  match l with
  | [] => ret tt
  | x :: rest => f x ;; forEach rest f
  end.

(** *** What the browser does when called *)

(** A fresh object number; the driver may refuse to hand the object out. *)
Definition allocate : M num (option handle) :=
  h <- get (fun w => next_handle (page w)) ;;
  ok <- get (fun w => alloc_ok (browser w) h) ;;
  modify (on_page (set_next_handle (S h))) ;;
  ret (if ok then Some h else None).

Definition gl_bindBuffer (buffer : option handle) : M num unit :=
  emit (gl_bindBuffer_ARRAY_BUFFER buffer) ;;
  modify (on_page (set_ARRAY_BUFFER_BINDING buffer)).

Definition performance_now_ : M num num :=
  n <- get (fun w => now_calls (page w)) ;;
  modify (on_page (set_now_calls (S n))) ;;
  get (fun w => performance_now (browser w) n).

Definition requestAnimationFrame_ : M num nat :=
  id <- get (fun w => next_frame (page w)) ;;
  modify (on_page (fun p => set_frames (frames p ++ [id]) (set_next_frame (S id) p))) ;;
  emit (requestAnimationFrame id) ;;
  ret id.

Definition cancelAnimationFrame_ (id : nat) : M num unit :=
  emit (cancelAnimationFrame id) ;;
  modify (on_page (fun p => set_frames (filter (fun i => negb (Nat.eqb i id)) (frames p)) p)).

Definition addEventListener_ (ev : window_event) : M num unit :=
  emit (window_addEventListener ev) ;;
  modify (on_page (fun p => set_listeners (listeners p ++ [ev]) p)).

Definition removeEventListener_ (ev : window_event) : M num unit :=
  emit (window_removeEventListener ev) ;;
  modify (on_page (fun p =>
    set_listeners (filter (fun e => negb (window_event_eqb e ev)) (listeners p)) p)).

(** *** setProjection *)

(** The perspective branch up to its array literal: the matrix before
    [matrix[14]] and [matrix[15]] are changed. *)
Definition perspective_literal (camera : CameraConfig num) : list num :=
  let fovRad := (fov camera * (Math_PI / of_Z 180))%js in
  let f := Math_tan (Math_PI * lit_0_5 - lit_0_5 * fovRad)%js in
  let rangeInv := (of_Z 1 / (near camera - far camera))%js in
  [ (f / c_aspect camera)%js; of_Z 0; of_Z 0; of_Z 0;
    of_Z 0; f; of_Z 0; of_Z 0;
    of_Z 0; of_Z 0; ((near camera + far camera) * rangeInv)%js; of_Z (-1);
    of_Z 0; of_Z 0; (near camera * far camera * rangeInv * of_Z 2)%js; of_Z 0 ].

(** [matrix[i] += d], for an index within the array. *)
Fixpoint add_at (i : nat) (d : num) (matrix : list num) : list num :=
  match matrix, i with
  | [], _ => []
  | x :: rest, O => (x + d)%js :: rest
  | x :: rest, S j => x :: add_at j d rest
  end.

Definition set_c_aspect (v : num) (c : CameraConfig num) : CameraConfig num :=
  {| fov := fov c; near := near c; far := far c; c_aspect := v; z := z c;
     perspective := perspective c |}.

Definition setProjection (aspect : num) : M num (list num) :=
  camera0 <- get (fun w => camera (this w)) ;;
  if perspective camera0 then
    modify (on_this (fun t => set_camera (set_c_aspect aspect (camera t)) t)) ;;
    camera <- get (fun w => camera (this w)) ;;
    let matrix := perspective_literal camera in
    let matrix := add_at 14 (z camera) matrix in
    let matrix := add_at 15 (z camera) matrix in
    ret matrix
  else
    width <- get (fun w => width (this w)) ;;
    height <- get (fun w => height (this w)) ;;
    ret [ (of_Z 2 / width)%js; of_Z 0; of_Z 0; of_Z 0;
          of_Z 0; (of_Z (-2) / height)%js; of_Z 0; of_Z 0;
          of_Z 0; of_Z 0; of_Z 1; of_Z 0;
          of_Z (-1); of_Z 1; of_Z 0; of_Z 1 ].

(** *** createShader, createProgram *)

Definition info (log : option string) : string :=
  match log with Some s => s | None => "null" end.

Definition createShader (type : shader_kind) (source : string) : M num handle :=
  created <- allocate ;;
  emit (gl_createShader type created) ;;
  match created with
  | None => throw (Error "Failed to create shader")
  | Some shader =>
      emit (gl_shaderSource shader source) ;;
      emit (gl_compileShader shader) ;;
      status <- get (fun w => compile_status (browser w) type source) ;;
      emit (gl_getShaderParameter_COMPILE_STATUS shader status) ;;
      if status then ret shader
      else
        error <- get (fun w => shader_info_log (browser w) type source) ;;
        emit (gl_getShaderInfoLog shader error) ;;
        emit (gl_deleteShader shader) ;;
        throw (Error (String.append "Shader compilation failed: " (info error)))
  end.

Definition createProgram (vertex fragment : string) : M num unit :=
  vertexShader <- createShader VERTEX_SHADER vertex ;;
  fragmentShader <- createShader FRAGMENT_SHADER fragment ;;
  created <- allocate ;;
  emit (gl_createProgram created) ;;
  match created with
  | None => throw (Error "Failed to create program")
  | Some prog =>
      emit (gl_attachShader prog vertexShader) ;;
      emit (gl_attachShader prog fragmentShader) ;;
      emit (gl_linkProgram prog) ;;
      status <- get (fun w => link_status (browser w) vertex fragment) ;;
      emit (gl_getProgramParameter_LINK_STATUS prog status) ;;
      if status then
        emit (gl_useProgram prog) ;;
        modify (on_this (set_program (Some prog)))
      else
        error <- get (fun w => program_info_log (browser w) vertex fragment) ;;
        emit (gl_getProgramInfoLog prog error) ;;
        emit (gl_deleteProgram prog) ;;
        throw (Error (String.append "Program linking failed: " (info error)))
  end.

(** *** Uniforms *)

(** The [switch] of [setUniform]. *)
Definition upload (type : uniform_type) (location : handle) (v : value num)
  : call num :=
  match type with
  | t_int => gl_uniform1i location v
  | t_float => gl_uniform1f location v
  | t_vec2 => gl_uniform2f location (index v 0) (index v 1)
  | t_vec3 => gl_uniform3f location (index v 0) (index v 1) (index v 2)
  | t_vec4 => gl_uniform4f location (index v 0) (index v 1) (index v 2) (index v 3)
  | t_mat2 => gl_uniformMatrix2fv location v
  | t_mat3 => gl_uniformMatrix3fv location v
  | t_mat4 => gl_uniformMatrix4fv location v
  end.

Definition set_u_value (v : value num) (u : UniformConfig num) : UniformConfig num :=
  {| u_type := u_type u; u_value := v; u_location := u_location u |}.

Definition set_u_location (l : option handle) (u : UniformConfig num)
  : UniformConfig num :=
  {| u_type := u_type u; u_value := u_value u; u_location := l |}.

(** [uniforms[name].f = ...] on the record that [this.data.uniforms] and the
    accessors' closure share. *)
Definition update_uniform (name : string) (f : UniformConfig num -> UniformConfig num)
  : M num unit :=
  modify (on_this (fun t =>
    set_data_uniforms (obj_update name f (data_uniforms t)) t)).

Definition setUniform (name : string) (v : value num) : M num unit :=
  uniform <- get (fun w => obj_get name (data_uniforms (this w))) ;;
  match uniform with
  | None => ret tt
  | Some uniform =>
      match u_location uniform with
      | None => ret tt
      | Some location =>
          update_uniform name (set_u_value v) ;;
          emit (upload (u_type uniform) location v)
      end
  end.

(** [this.uniforms[name] = v]: the setter when [createUniforms] defined one
    for [name], a plain property otherwise. *)
Definition uniforms_set (name : string) (v : value num) : M num unit :=
  values <- get (fun w => uniforms (this w)) ;;
  if mem name (accessors values) then
    uniform <- get (fun w => obj_get name (data_uniforms (this w))) ;;
    match uniform with
    | Some _ =>
        update_uniform name (set_u_value v) ;;
        setUniform name v
    | None => ret tt
    end
  else
    modify (on_this (set_uniforms
      {| accessors := accessors values; own := obj_set name v (own values) |})).

(** [this.uniforms[name]]; [None] is [undefined]. *)
Definition uniforms_get (name : string) (w : World num) : option (value num) :=
  let values := uniforms (this w) in
  if mem name (accessors values) then
    option_map u_value (obj_get name (data_uniforms (this w)))
  else obj_get name (own values).

Definition createUniforms (data : obj (UniformConfig num)) : M num unit :=
  modify (on_this (set_data_uniforms data)) ;;
  modify (on_this (set_uniforms {| accessors := []; own := [] |})) ;;
  forEach (obj_keys data) (fun name =>
    uniform <- get (fun w => obj_get name (data_uniforms (this w))) ;;
    match uniform with
    | None => throw (TypeError "Cannot set properties of undefined (setting 'location')")
    | Some _ =>
        prog <- get (fun w => program (this w)) ;;
        active <- get (fun w => uniform_active (browser w) (String.append "u_" name)) ;;
        location <- (if active : bool then allocate else ret None) ;;
        emit (gl_getUniformLocation prog (String.append "u_" name) location) ;;
        update_uniform name (set_u_location location) ;;
        values <- get (fun w => uniforms (this w)) ;;
        if mem name (accessors values) then
          throw (TypeError (String.append "Cannot redefine property: " name))
        else
          modify (on_this (set_uniforms
            {| accessors := accessors values ++ [name]; own := own values |}))
    end).

Definition updateUniforms : M num unit :=
  keys <- get (fun w => obj_keys (data_uniforms (this w))) ;;
  forEach keys (fun name =>
    uniform <- get (fun w => obj_get name (data_uniforms (this w))) ;;
    match uniform with
    | None => throw (TypeError "Cannot read properties of undefined (reading 'value')")
    | Some uniform => uniforms_set name (u_value uniform)
    end).

(** *** Buffers *)

Definition set_b_data (d : list num) (b : BufferConfig num) : BufferConfig num :=
  {| b_size := b_size b; b_data := d; b_buffer := b_buffer b |}.

Definition set_b_buffer (h : option handle) (b : BufferConfig num) : BufferConfig num :=
  {| b_size := b_size b; b_data := b_data b; b_buffer := h |}.

(** [buffers[name].f = ...], likewise. *)
Definition update_buffer (name : string) (f : BufferConfig num -> BufferConfig num)
  : M num unit :=
  modify (on_this (fun t =>
    set_data_buffers (obj_update name f (data_buffers t)) t)).

Definition createBuffer (name : string) (size : num) : M num handle :=
  prog <- get (fun w => program (this w)) ;;
  idx <- get (fun w => attrib_location (browser w) name) ;;
  emit (gl_getAttribLocation prog name idx) ;;
  created <- allocate ;;
  emit (gl_createBuffer created) ;;
  match created with
  | None => throw (Error (String.append "Failed to create buffer: " name))
  | Some buffer =>
      gl_bindBuffer (Some buffer) ;;
      emit (gl_enableVertexAttribArray idx) ;;
      emit (gl_vertexAttribPointer idx size) ;;
      ret buffer
  end.

(** [data] is [None] when the argument is left out; an array, empty or not,
    is truthy. *)
Definition setBuffer (name : option string) (data : option (list num)) : M num unit :=
  match name with
  | None => gl_bindBuffer None
  | Some name =>
      match data with
      | None => ret tt
      | Some data =>
          buffer <- get (fun w => obj_get name (data_buffers (this w))) ;;
          match buffer with
          | None => throw (TypeError "Cannot read properties of undefined (reading 'buffer')")
          | Some buffer =>
              gl_bindBuffer (b_buffer buffer) ;;
              emit (gl_bufferData_ARRAY_BUFFER data)
          end
      end
  end.

(** [this.buffers[name] = data] *)
Definition buffers_set (name : string) (data : list num) : M num unit :=
  values <- get (fun w => buffers (this w)) ;;
  if mem name (accessors values) then
    buffer <- get (fun w => obj_get name (data_buffers (this w))) ;;
    match buffer with
    | Some _ =>
        update_buffer name (set_b_data data) ;;
        setBuffer (Some name) (Some data) ;;
        if String.eqb name "position" then
          position <- get (fun w => obj_get "position" (data_buffers (this w))) ;;
          match position with
          | None => throw (TypeError "Cannot read properties of undefined (reading 'data')")
          | Some position =>
              modify (on_this (set_count
                (of_Z (Z.of_nat (List.length (b_data position))) / of_Z 3)%js))
          end
        else ret tt
    | None => ret tt
    end
  else
    modify (on_this (set_buffers
      {| accessors := accessors values; own := obj_set name data (own values) |})).

(** [this.buffers[name]] *)
Definition buffers_get (name : string) (w : World num) : option (list num) :=
  let values := buffers (this w) in
  if mem name (accessors values) then
    option_map b_data (obj_get name (data_buffers (this w)))
  else obj_get name (own values).

Definition createBuffers (data : obj (BufferConfig num)) : M num unit :=
  modify (on_this (set_data_buffers data)) ;;
  modify (on_this (set_buffers {| accessors := []; own := [] |})) ;;
  forEach (obj_keys data) (fun name =>
    buffer <- get (fun w => obj_get name (data_buffers (this w))) ;;
    match buffer with
    | None => throw (TypeError "Cannot read properties of undefined (reading 'size')")
    | Some buffer =>
        created <- createBuffer (String.append "a_" name) (b_size buffer) ;;
        update_buffer name (set_b_buffer (Some created)) ;;
        values <- get (fun w => buffers (this w)) ;;
        if mem name (accessors values) then
          throw (TypeError (String.append "Cannot redefine property: " name))
        else
          modify (on_this (set_buffers
            {| accessors := accessors values ++ [name]; own := own values |}))
    end).

Definition updateBuffers : M num unit :=
  keys <- get (fun w => obj_keys (data_buffers (this w))) ;;
  forEach keys (fun name =>
    buffer <- get (fun w => obj_get name (data_buffers (this w))) ;;
    match buffer with
    | None => throw (TypeError "Cannot read properties of undefined (reading 'data')")
    | Some buffer => buffers_set name (b_data buffer)
    end) ;;
  setBuffer None None.

(** *** Texture *)

Definition loadTexture (src : string) : M num unit :=
  emit (image_set_src src).

(** The [onload] handler that [loadTexture] installs. *)
Definition textureImage_onload (texture : handle) (src : string) : M num unit :=
  emit (gl_bindTexture_TEXTURE_2D texture) ;;
  emit (gl_texImage2D_image src) ;;
  emit (gl_texParameteri TEXTURE_MIN_FILTER_LINEAR) ;;
  emit (gl_texParameteri TEXTURE_MAG_FILTER_LINEAR) ;;
  emit (gl_texParameteri TEXTURE_WRAP_S_CLAMP_TO_EDGE) ;;
  emit (gl_texParameteri TEXTURE_WRAP_T_CLAMP_TO_EDGE).

(** A string is truthy unless it is empty; [null] is falsy. *)
Definition truthy (src : option string) : option string :=
  match src with
  | Some EmptyString | None => None
  | Some s => Some s
  end.

Definition createTexture (src : option string) : M num unit :=
  created <- allocate ;;
  emit (gl_createTexture created) ;;
  match created with
  | None => throw (Error "Failed to create texture")
  | Some texture =>
      emit (gl_bindTexture_TEXTURE_2D texture) ;;
      emit gl_texImage2D_pixel ;;
      modify (on_this (set_texture (Some texture))) ;;
      match truthy src with
      | Some src =>
          uniforms_set "hasTexture" (VNum (of_Z 1)) ;;
          loadTexture src
      | None => ret tt
      end
  end.

(** *** destroy

    The method is a sequence of blocks, each under a comment of its own in
    the source: stop the animation loop, remove the event listeners, clean
    up the WebGL buffers, texture and program, remove the canvas. *)

Definition stop_animation_loop : M num unit :=
  id <- get (fun w => animationFrameId (this w)) ;;
  match id with
  | Some id =>
      cancelAnimationFrame_ id ;;
      modify (on_this (set_animationFrameId None))
  | None => ret tt
  end.

Definition remove_event_listeners : M num unit :=
  resizeHandler <- get (fun w => resizeHandler (this w)) ;;
  (if resizeHandler : bool then
     removeEventListener_ ev_resize ;;
     modify (on_this (set_resizeHandler false))
   else ret tt) ;;
  mousemoveHandler <- get (fun w => mousemoveHandler (this w)) ;;
  if mousemoveHandler : bool then
    removeEventListener_ ev_mousemove ;;
    modify (on_this (set_mousemoveHandler false))
  else ret tt.

Definition clean_up_webgl : M num unit :=
  buffers <- get (fun w => obj_values (data_buffers (this w))) ;;
  forEach buffers (fun buffer =>
    match b_buffer buffer with
    | Some b => emit (gl_deleteBuffer b)
    | None => ret tt
    end) ;;
  texture <- get (fun w => texture (this w)) ;;
  match texture with
  | Some t => emit (gl_deleteTexture t)
  | None => ret tt
  end ;;
  prog <- get (fun w => program (this w)) ;;
  match prog with
  | Some p => emit (gl_deleteProgram p)
  | None => ret tt
  end.

Definition remove_canvas : M num unit :=
  parentNode <- get (fun w => canvas_parentNode (page w)) ;;
  if parentNode : bool then
    emit parentNode_removeChild ;;
    modify (on_page (set_canvas_parentNode false))
  else ret tt.

Definition destroy : M num unit :=
  stop_animation_loop ;;
  remove_event_listeners ;;
  clean_up_webgl ;;
  remove_canvas.

(** *** User code *)

Definition run_api (a : api num) : M num unit :=
  match a with
  | api_destroy => destroy
  | api_uniforms_set name v => uniforms_set name v
  | api_buffers_set name data => buffers_set name data
  | api_setBuffer name data => setBuffer name data
  end.

(** The body of a callback: its calls in order; a throw ends it. *)
Definition run_callback (body : list (api num)) : M num unit :=
  forEach body run_api.

(** *** mousemove, resize, _update *)

Definition mousemove (pageX pageY : num) : M num unit :=
  width <- get (fun w => width (this w)) ;;
  height <- get (fun w => height (this w)) ;;
  let x := (pageX / width * of_Z 2 - of_Z 1)%js in
  let y := (pageY / height * of_Z 2 - of_Z 1)%js in
  uniforms_set "mousemove" (VArr [x; y]).

Definition resize : M num unit :=
  width <- get (fun w => offsetWidth (page w)) ;;
  modify (on_this (set_width width)) ;;
  height <- get (fun w => offsetHeight (page w)) ;;
  modify (on_this (set_height height)) ;;
  let aspect := (width / height)%js in
  modify (on_this (set_aspect aspect)) ;;
  dpi <- get (fun w => devicePixelRatio (page w)) ;;
  emit (canvas_set_size (width * dpi)%js (height * dpi)%js width height) ;;
  emit (gl_viewport (width * dpi)%js (height * dpi)%js) ;;
  emit gl_clearColor ;;
  uniforms_set "resolution" (VArr [width; height]) ;;
  projection <- setProjection aspect ;;
  uniforms_set "projection" (VArr projection) ;;
  onResize <- get (fun w => onResize (this w)) ;;
  run_callback (onResize width height dpi).

Definition set_old (v : num) (t : TimeData num) : TimeData num :=
  {| start := start t; old := v |}.

Definition _update : M num unit :=
  now <- performance_now_ ;;
  time0 <- get (fun w => time (this w)) ;;
  let elapsed := ((now - start time0) / of_Z 5000)%js in
  let delta := (now - old time0)%js in
  modify (on_this (fun t => set_time (set_old now (time t)) t)) ;;
  uniforms_set "time" (VNum elapsed) ;;
  count <- get (fun w => count (this w)) ;;
  (if (count >? of_Z 0)%js then
     emit gl_clear_COLOR_BUFFER_BIT ;;
     emit (gl_drawArrays_POINTS count)
   else ret tt) ;;
  onUpdate <- get (fun w => onUpdate (this w)) ;;
  run_callback (onUpdate delta) ;;
  id <- requestAnimationFrame_ ;;
  modify (on_this (set_animationFrameId (Some id))).

(** *** The constructor *)

Definition default_vertex : string := "
        precision highp float;

        attribute vec4 a_position;
        attribute vec4 a_color;

        uniform float u_time;
        uniform vec2 u_resolution;
        uniform vec2 u_mousemove;
        uniform mat4 u_projection;

        varying vec4 v_color;

        void main() {

          gl_Position = u_projection * a_position;
          gl_PointSize = (10.0 / gl_Position.w) * 100.0;

          v_color = a_color;

        }".

Definition default_fragment : string := "
        precision highp float;

        uniform sampler2D u_texture;
        uniform int u_hasTexture;

        varying vec4 v_color;

        void main() {

          if ( u_hasTexture == 1 ) {

            gl_FragColor = v_color * texture2D(u_texture, gl_PointCoord);

          } else {

            gl_FragColor = v_color;

          }

        }".

Definition default_uniforms : obj (UniformConfig num) :=
  [ ("time", {| u_type := t_float; u_value := VNum (of_Z 0); u_location := None |});
    ("hasTexture", {| u_type := t_int; u_value := VNum (of_Z 0); u_location := None |});
    ("resolution",
      {| u_type := t_vec2; u_value := VArr [of_Z 0; of_Z 0]; u_location := None |});
    ("mousemove",
      {| u_type := t_vec2; u_value := VArr [of_Z 0; of_Z 0]; u_location := None |});
    ("projection",
      {| u_type := t_mat4;
         u_value := VArr [ of_Z 1; of_Z 0; of_Z 0; of_Z 0;
                           of_Z 0; of_Z 1; of_Z 0; of_Z 0;
                           of_Z 0; of_Z 0; of_Z 1; of_Z 0;
                           of_Z 0; of_Z 0; of_Z 0; of_Z 1 ];
         u_location := None |}) ].

Definition default_buffers : obj (BufferConfig num) :=
  [ ("position", {| b_size := of_Z 3; b_data := []; b_buffer := None |});
    ("color", {| b_size := of_Z 4; b_data := []; b_buffer := None |}) ].

(** [{ fov: 60, near: 1, far: 10000, aspect: 1, z: 100, perspective: true,
      ...defaultOptions.camera }] *)
Definition merge_camera (over : option (PartialCamera num)) : CameraConfig num :=
  let given {A} (f : PartialCamera num -> option A) : option A :=
    match over with Some p => f p | None => None end in
  {| fov := or_default (given p_fov) (of_Z 60);
     near := or_default (given p_near) (of_Z 1);
     far := or_default (given p_far) (of_Z 10000);
     c_aspect := or_default (given p_aspect) (of_Z 1);
     z := or_default (given p_z) (of_Z 100);
     perspective := or_default (given p_perspective) true |}.

(** The instance after the field initialisers and the assignments of the
    constructor that come before [holder.appendChild]. *)
Definition fresh (options : ShaderProgramOptions num) : ShaderProgram num :=
  {| count := of_Z 0;
     camera := merge_camera (opt_camera options);
     onUpdate := or_default (opt_onUpdate options) (fun _ => []);
     onResize := or_default (opt_onResize options) (fun _ _ _ => []);
     data_uniforms := [];
     data_buffers := [];
     uniforms := {| accessors := []; own := [] |};
     buffers := {| accessors := []; own := [] |};
     width := of_Z 0;
     height := of_Z 0;
     aspect := of_Z 1;
     program := None;
     texture := None;
     time := {| start := of_Z 0; old := of_Z 0 |};
     animationFrameId := None;
     resizeHandler := false;
     mousemoveHandler := false |}.

Definition constructor (options : ShaderProgramOptions num) : M num unit :=
  let antialias := or_default (opt_antialias options) false in
  let depthTest := or_default (opt_depthTest options) false in
  let uniforms :=
    obj_spread default_uniforms (or_default (opt_uniforms options) []) in
  let buffers :=
    obj_spread default_buffers (or_default (opt_buffers options) []) in
  supported <- get (fun w => webgl_supported (browser w)) ;;
  emit (canvas_getContext_webgl antialias supported) ;;
  if negb supported then throw (Error "WebGL not supported")
  else
    modify (on_this (fun _ => fresh options)) ;;
    emit holder_appendChild ;;
    modify (on_page (set_canvas_parentNode true)) ;;
    createProgram (or_default (opt_vertex options) default_vertex)
                  (or_default (opt_fragment options) default_fragment) ;;
    createBuffers buffers ;;
    createUniforms uniforms ;;
    updateBuffers ;;
    updateUniforms ;;
    createTexture (opt_texture options) ;;
    emit (gl_enable BLEND) ;;
    emit (gl_enable CULL_FACE) ;;
    emit gl_blendFunc_SRC_ALPHA_ONE ;;
    emit (if depthTest then gl_enable DEPTH_TEST else gl_disable DEPTH_TEST) ;;
    (if or_default (opt_autosize options) true then
       modify (on_this (set_resizeHandler true)) ;;
       addEventListener_ ev_resize
     else ret tt) ;;
    (if or_default (opt_mousemove options) false then
       modify (on_this (set_mousemoveHandler true)) ;;
       addEventListener_ ev_mousemove
     else ret tt) ;;
    resize ;;
    start <- performance_now_ ;;
    old <- performance_now_ ;;
    modify (on_this (set_time {| start := start; old := old |})) ;;
    _update.

(** *** The page *)

(** A page on which nothing has been created yet.  Object and frame numbers
    start at 1. *)
Definition blank (b : Browser num) (offsetWidth offsetHeight dpi : num) : World num :=
  {| this := fresh {| opt_antialias := None; opt_depthTest := None;
                      opt_mousemove := None; opt_autosize := None;
                      opt_vertex := None; opt_fragment := None;
                      opt_uniforms := None; opt_buffers := None;
                      opt_camera := None; opt_texture := None;
                      opt_onUpdate := None; opt_onResize := None |};
     page := {| next_handle := 1; next_frame := 1; now_calls := 0;
                ARRAY_BUFFER_BINDING := None; frames := []; listeners := [];
                canvas_parentNode := false; offsetWidth := offsetWidth;
                offsetHeight := offsetHeight; devicePixelRatio := dpi |};
     browser := b |}.

(** What happens on the page once the instance exists: the browser runs a
    requested frame, the window is resized to a new layout of the holder,
    the pointer moves, or user code calls into the instance. *)
Inductive event : Type :=
| on_frame (id : nat)
| on_resize (offsetWidth offsetHeight : num)
| on_mousemove (pageX pageY : num)
| on_user (a : api num).

(** A frame request runs at most once, and only while it is on the list;
    a listener runs only while it is registered. *)
Definition dispatch (e : event) : M num unit :=
  match e with
  | on_frame id =>
      pending <- get (fun w => frames (page w)) ;;
      if existsb (Nat.eqb id) pending then
        modify (on_page (fun p =>
          set_frames (filter (fun i => negb (Nat.eqb i id)) (frames p)) p)) ;;
        _update
      else ret tt
  | on_resize w h =>
      modify (on_page (fun p => set_offsetWidth w (set_offsetHeight h p))) ;;
      registered <- get (fun w => listeners (page w)) ;;
      if existsb (window_event_eqb ev_resize) registered then resize else ret tt
  | on_mousemove x y =>
      registered <- get (fun w => listeners (page w)) ;;
      if existsb (window_event_eqb ev_mousemove) registered then mousemove x y
      else ret tt
  | on_user a => run_api a
  end.

End Class.

Arguments event : clear implicits.

(** ** Reading the calls

    Which entry point of the context uploads which kind of uniform, as the
    WebGL interface has it. *)
Definition entry_point {num} (c : call num) : option uniform_type :=
  match c with
  | gl_uniform1i _ _ => Some t_int
  | gl_uniform1f _ _ => Some t_float
  | gl_uniform2f _ _ _ => Some t_vec2
  | gl_uniform3f _ _ _ _ => Some t_vec3
  | gl_uniform4f _ _ _ _ _ => Some t_vec4
  | gl_uniformMatrix2fv _ _ => Some t_mat2
  | gl_uniformMatrix3fv _ _ => Some t_mat3
  | gl_uniformMatrix4fv _ _ => Some t_mat4
  | _ => None
  end.

Definition is_upload {num} (c : call num) : bool :=
  match entry_point c with Some _ => true | None => false end.

Definition is_draw {num} (c : call num) : bool :=
  match c with
  | gl_clear_COLOR_BUFFER_BIT | gl_drawArrays_POINTS _ => true
  | _ => false
  end.

(** The calls that give something back: a handle, a listener, a pending
    frame or the canvas's place in the document. *)
Definition is_release {num} (c : call num) : bool :=
  match c with
  | gl_deleteBuffer _ | gl_deleteTexture _ | gl_deleteProgram _
  | gl_deleteShader _ | window_removeEventListener _ | cancelAnimationFrame _
  | parentNode_removeChild => true
  | _ => false
  end.

(** The shader objects a run created. *)
Definition shaders_created {num} (cs : list (call num)) : list handle :=
  flat_map (fun c => match c with
                     | gl_createShader _ (Some h) => [h]
                     | _ => []
                     end) cs.

(** Whether [3n / 3], [3(n+1) / 3], ... are [n], [n+1], ... in doubles, for
    [fuel] numbers from [n] on. *)
Fixpoint thirds_exact (fuel : nat) (n : Z) : bool :=
  match fuel with
  | O => true
  | S k =>
      PrimFloat.Leibniz.eqb (PrimFloat.div (float_of_Z (3 * n)) (float_of_Z 3))
                            (float_of_Z n)
      && thirds_exact k (n + 1)
  end.

(** ** Sample pages *)

Definition no_options {num} : ShaderProgramOptions num :=
  {| opt_antialias := None; opt_depthTest := None; opt_mousemove := None;
     opt_autosize := None; opt_vertex := None; opt_fragment := None;
     opt_uniforms := None; opt_buffers := None; opt_camera := None;
     opt_texture := None; opt_onUpdate := None; opt_onResize := None |}.

(** A driver that compiles and links everything.  Of the uniforms that the
    default shaders declare it keeps the ones they use, as GLSL compilers
    do; the clock ticks 16 ms per reading. *)
Definition driver {num} `{JSNumber num} : Browser num :=
  {| webgl_supported := true;
     alloc_ok := fun _ => true;
     compile_status := fun _ _ => true;
     shader_info_log := fun _ _ => Some "";
     link_status := fun _ _ => true;
     program_info_log := fun _ _ => Some "";
     uniform_active := fun name => mem name ["u_projection"; "u_hasTexture"];
     attrib_location := fun name =>
       if String.eqb name "a_position" then 0%Z
       else if String.eqb name "a_color" then 1%Z else (-1)%Z;
     performance_now := fun n => of_Z (16 * Z.of_nat n) |}.

(** An 800 x 600 holder at device pixel ratio 2. *)
Definition page0 {num} `{JSNumber num} (b : Browser num) : World num :=
  blank b (of_Z 800) (of_Z 600) (of_Z 2).

(** [new ShaderProgram(holder)] *)
Definition ready : World PrimFloat.float :=
  world (constructor no_options (page0 driver)).

(** The same page over the reals, once [createBuffers] has run. *)
Definition buffers_created : World R :=
  world (createBuffers default_buffers (page0 driver)).

(** A driver whose fragment shaders do not compile. *)
Definition driver_fragment_fails : Browser PrimFloat.float :=
  {| webgl_supported := true;
     alloc_ok := fun _ => true;
     compile_status := fun kind _ =>
       match kind with VERTEX_SHADER => true | FRAGMENT_SHADER => false end;
     shader_info_log := fun _ _ => Some "ERROR: 0:1: syntax error";
     link_status := fun _ _ => true;
     program_info_log := fun _ _ => Some "";
     uniform_active := uniform_active driver;
     attrib_location := attrib_location driver;
     performance_now := performance_now driver |}.

(** A driver whose programs do not link. *)
Definition driver_link_fails : Browser PrimFloat.float :=
  {| webgl_supported := true;
     alloc_ok := fun _ => true;
     compile_status := fun _ _ => true;
     shader_info_log := fun _ _ => Some "";
     link_status := fun _ _ => false;
     program_info_log := fun _ _ => Some "varying v_color mismatch";
     uniform_active := uniform_active driver;
     attrib_location := attrib_location driver;
     performance_now := performance_now driver |}.

(** [new ShaderProgram(holder, { onUpdate() { this.destroy() } })] *)
Definition destroy_on_update : ShaderProgramOptions PrimFloat.float :=
  {| opt_antialias := None; opt_depthTest := None; opt_mousemove := None;
     opt_autosize := None; opt_vertex := None; opt_fragment := None;
     opt_uniforms := None; opt_buffers := None; opt_camera := None;
     opt_texture := None; opt_onUpdate := Some (fun _ => [api_destroy]);
     opt_onResize := None |}.

(** The camera of the defaults: perspective, 60 degrees, planes at 1 and
    10000, aspect 1, pushed back by 100. *)
Definition default_camera {num} `{JSNumber num} : CameraConfig num :=
  {| fov := of_Z 60; near := of_Z 1; far := of_Z 10000; c_aspect := of_Z 1;
     z := of_Z 100; perspective := true |}.

(** The matrix as a function of what [setProjection] reads: the camera, the
    width and height of the instance, and the aspect ratio it is given. *)
Definition projection_of {num} `{JSNumber num}
  (camera : CameraConfig num) (width height aspect : num) : list num :=
  if perspective camera then
    let camera := set_c_aspect aspect camera in
    add_at 15 (z camera) (add_at 14 (z camera) (perspective_literal camera))
  else
    [ (of_Z 2 / width)%js; of_Z 0; of_Z 0; of_Z 0;
      of_Z 0; (of_Z (-2) / height)%js; of_Z 0; of_Z 0;
      of_Z 0; of_Z 0; of_Z 1; of_Z 0;
      of_Z (-1); of_Z 1; of_Z 0; of_Z 1 ].

(** ** A program logic for the monad *)

Section Assertions.
Context {num : Type}.

(** [wp m C Q E w]: run from [w], [m] makes only calls in [C], and ends in
    a world satisfying [Q] with its result or [E] with its exception. *)
Definition wp {A} (m : M num A) (C : call num -> Prop)
  (Q : A -> World num -> Prop) (E : exn -> World num -> Prop) (w : World num) : Prop :=
  Forall C (calls (m w))
  /\ match result (m w) with
     | inr a => Q a (world (m w))
     | inl e => E e (world (m w))
     end.

Definition anything {A} : A -> World num -> Prop := fun _ _ => True.
Definition never {A} : A -> World num -> Prop := fun _ _ => False.
Definition any_call : call num -> Prop := fun _ => True.
Definition no_draw (c : call num) : Prop := is_draw c = false.

Definition delete_buffer (buffer : BufferConfig num) : list (call num) :=
  match b_buffer buffer with
  | Some b => [gl_deleteBuffer b]
  | None => []
  end.

(** The calls with which [destroy] gives back the handles of the context. *)
Definition gl_releases (t : ShaderProgram num) : list (call num) :=
  flat_map delete_buffer (obj_values (data_buffers t))
  ++ match texture t with Some x => [gl_deleteTexture x] | None => [] end
  ++ match program t with Some p => [gl_deleteProgram p] | None => [] end.

(** What [destroy] resets: nothing is scheduled, listened to or attached. *)
Definition torn_down (w : World num) : Prop :=
  animationFrameId (this w) = None
  /\ resizeHandler (this w) = false
  /\ mousemoveHandler (this w) = false
  /\ canvas_parentNode (page w) = false.

(** What [destroy] does not reset: the handles of the context. *)
Definition same_gl (w w' : World num) : Prop :=
  data_buffers (this w') = data_buffers (this w)
  /\ texture (this w') = texture (this w)
  /\ program (this w') = program (this w).

(** The names with an accessor are the keys of the config records, for
    buffers ([Kb]) and for uniforms ([Ku]). *)
Definition registered (Kb Ku : list string) (w : World num) : Prop :=
  accessors (buffers (this w)) = Kb
  /\ obj_keys (data_buffers (this w)) = Kb
  /\ accessors (uniforms (this w)) = Ku
  /\ obj_keys (data_uniforms (this w)) = Ku.

(** [m] keeps the registration when it returns. *)
Definition keeps {A} (Kb Ku : list string) (m : M num A) : Prop :=
  forall w, registered Kb Ku w ->
    wp m any_call (fun _ => registered Kb Ku) anything w.

End Assertions.

(** ** Assertions about the calls in order *)

Section TraceAssertions.
Context {num : Type}.

(** [wpt m Q E w]: run from [w], [m] ends with calls, result and world in
    [Q], or with calls, exception and world in [E]. *)
Definition wpt {A} (m : M num A)
  (Q : list (call num) -> A -> World num -> Prop)
  (E : list (call num) -> exn -> World num -> Prop) (w : World num) : Prop :=
  match result (m w) with
  | inr a => Q (calls (m w)) a (world (m w))
  | inl e => E (calls (m w)) e (world (m w))
  end.

End TraceAssertions.

(** The world after a list of events; an exception that leaves a handler
    does not stop the page. *)
Definition after {num} `{JSNumber num} (es : list (event num)) (w : World num)
  : World num :=
  fold_left (fun w e => world (dispatch e w)) es w.

(** ** What is scheduled

    The fields that decide which handlers the browser will run: the frame
    request on record and the pending ones, the next frame and object
    numbers, the listeners on [window] and the two handler fields. *)
Record Schedule : Type := {
  s_id : option nat;
  s_frames : list nat;
  s_next_frame : nat;
  s_next_handle : handle;
  s_listeners : list window_event;
  s_resize : bool;
  s_mousemove : bool
}.

Definition sched {num} (w : World num) : Schedule :=
  {| s_id := animationFrameId (this w);
     s_frames := frames (page w);
     s_next_frame := next_frame (page w);
     s_next_handle := next_handle (page w);
     s_listeners := listeners (page w);
     s_resize := resizeHandler (this w);
     s_mousemove := mousemoveHandler (this w) |}.

Definition without (ev : window_event) (l : list window_event) : list window_event :=
  filter (fun e => negb (window_event_eqb e ev)) l.

(** What [destroy] does to the schedule. *)
Definition destroyed (s : Schedule) : Schedule :=
  let l := if s_resize s then without ev_resize (s_listeners s) else s_listeners s in
  {| s_id := None;
     s_frames := match s_id s with
                 | Some id => filter (fun i => negb (Nat.eqb i id)) (s_frames s)
                 | None => s_frames s
                 end;
     s_next_frame := s_next_frame s;
     s_next_handle := s_next_handle s;
     s_listeners := if s_mousemove s then without ev_mousemove l else l;
     s_resize := false;
     s_mousemove := false |}.

(** Every pending frame request is the one on record. *)
Definition tracked (s : Schedule) : Prop :=
  forall id, In id (s_frames s) -> s_id s = Some id.

(** No frame request is pending. *)
Definition idle (s : Schedule) : Prop := s_frames s = [].

Definition is_create {num} (c : call num) : bool :=
  match c with
  | gl_createShader _ _ | gl_createProgram _ | gl_createBuffer _
  | gl_createTexture _ => true
  | _ => false
  end.

(** What the end of [_update] does to the schedule: the next frame is
    requested and put on record. *)
Definition rescheduled (s : Schedule) : Schedule :=
  {| s_id := Some (s_next_frame s);
     s_frames := s_frames s ++ [s_next_frame s];
     s_next_frame := S (s_next_frame s);
     s_next_handle := s_next_handle s;
     s_listeners := s_listeners s;
     s_resize := s_resize s;
     s_mousemove := s_mousemove s |}.

(** A frame request that the browser takes off the list to run it. *)
Definition taken (id : nat) (s : Schedule) : Schedule :=
  {| s_id := s_id s;
     s_frames := filter (fun i => negb (Nat.eqb i id)) (s_frames s);
     s_next_frame := s_next_frame s;
     s_next_handle := s_next_handle s;
     s_listeners := s_listeners s;
     s_resize := s_resize s;
     s_mousemove := s_mousemove s |}.

Section ScheduleAssertions.
Context {num : Type}.

Definition no_create (c : call num) : Prop := is_create c = false.

(** [m] leaves the schedule alone and creates no object. *)
Definition unscheduled {A} (m : M num A) : Prop :=
  forall w, wp m no_create (fun _ w' => sched w' = sched w)
                           (fun _ w' => sched w' = sched w) w.

(** [m] keeps the property [J] of the schedule, whether it returns or
    throws, and creates no object. *)
Definition keeps_schedule (J : Schedule -> Prop) {A} (m : M num A) : Prop :=
  forall w, J (sched w) ->
    wp m no_create (fun _ w' => J (sched w')) (fun _ w' => J (sched w')) w.

(** [m] requests no frame. *)
Definition requests_nothing {A} (m : M num A) : Prop :=
  forall w, idle (sched w) ->
    wp m any_call (fun _ w' => idle (sched w')) (fun _ w' => idle (sched w')) w.

(** The fields that [resize] and [setProjection] set. *)
Definition dims (w : World num) : num * num * num * CameraConfig num :=
  (width (this w), height (this w), aspect (this w), camera (this w)).

Definition keeps_dims {A} (m : M num A) : Prop :=
  forall w, wp m any_call (fun _ w' => dims w' = dims w) (fun _ w' => dims w' = dims w) w.

Definition only_uploads (c : call num) : Prop := is_upload c = true.

End ScheduleAssertions.

(** ** What the writes and the creation steps send *)

(** What a write of [v] to the uniform [u] sends to the context. *)
Definition uploaded {num} (u : UniformConfig num) (v : value num) : list (call num) :=
  match u_location u with
  | Some location => [upload (u_type u) location v]
  | None => []
  end.

(** What a write of [data] to the buffer [b] sends to the context. *)
Definition written {num} (b : BufferConfig num) (data : list num) : list (call num) :=
  [gl_bindBuffer_ARRAY_BUFFER (b_buffer b); gl_bufferData_ARRAY_BUFFER data].

(** What [updateUniforms] sends for the uniform [name] of the configs [D]:
    its stored value, when it has a location. *)
Definition resent {num} (D : obj (UniformConfig num)) (name : string) : list (call num) :=
  match obj_get name D with
  | Some u => uploaded u (u_value u)
  | None => []
  end.

(** What [updateBuffers] sends for the buffer [name] of the configs [D]:
    its stored data, to its own buffer object. *)
Definition rewritten {num} (D : obj (BufferConfig num)) (name : string) : list (call num) :=
  match obj_get name D with
  | Some b => written b (b_data b)
  | None => []
  end.




(** ** More sample pages *)

(** A browser without WebGL. *)
Definition driver_without_webgl : Browser PrimFloat.float :=
  {| webgl_supported := false;
     alloc_ok := alloc_ok driver;
     compile_status := compile_status driver;
     shader_info_log := shader_info_log driver;
     link_status := link_status driver;
     program_info_log := program_info_log driver;
     uniform_active := uniform_active driver;
     attrib_location := attrib_location driver;
     performance_now := performance_now driver |}.

(** The sample page over the reals, once [createUniforms] has run and the
    instance has taken the 800 x 600 box of the holder. *)
Definition laid_out : World R :=
  on_this (set_width 800%R)
    (on_this (set_height 600%R)
       (world (createUniforms default_uniforms (page0 driver)))).

(** ** Rules of the program logic *)

Section Logic.
Context {num : Type}.

Lemma wp_ret {A} (a : A) C (Q : A -> World num -> Prop) E w :
  Q a w -> wp (ret a) C Q E w.
Proof. intros H. split; [constructor | exact H]. Qed.

Lemma wp_get {A} (f : World num -> A) C (Q : A -> World num -> Prop) E w :
  Q (f w) w -> wp (get f) C Q E w.
Proof. intros H. split; [constructor | exact H]. Qed.

Lemma wp_modify (f : World num -> World num) C (Q : unit -> World num -> Prop) E w :
  Q tt (f w) -> wp (modify f) C Q E w.
Proof. intros H. split; [constructor | exact H]. Qed.

Lemma wp_emit (c : call num) (C : call num -> Prop) (Q : unit -> World num -> Prop) E w :
  C c -> Q tt w -> wp (emit c) C Q E w.
Proof. intros Hc H. split; [repeat constructor; exact Hc | exact H]. Qed.

Lemma wp_throw {A} (e : exn) C (Q : A -> World num -> Prop) (E : exn -> World num -> Prop) w :
  E e w -> wp (throw e) C Q E w.
Proof. intros H. split; [constructor | exact H]. Qed.

Lemma wp_bind {A B} (m : M num A) (k : A -> M num B) C Q E w :
  wp m C (fun a w' => wp (k a) C Q E w') E w -> wp (bind m k) C Q E w.
Proof.
  unfold wp, bind. intros [Hc Hr].
  destruct (result (m w)) as [e|a]; cbn.
  - split; assumption.
  - destruct Hr as [Hc' Hr']. split; [apply Forall_app; split; assumption | exact Hr'].
Qed.

Lemma wp_mono {A} (m : M num A) (C C' : call num -> Prop)
  (Q Q' : A -> World num -> Prop) (E E' : exn -> World num -> Prop) w :
  wp m C Q E w ->
  (forall c, C c -> C' c) ->
  (forall a w', Q a w' -> Q' a w') ->
  (forall e w', E e w' -> E' e w') ->
  wp m C' Q' E' w.
Proof.
  unfold wp. intros [Hc Hr] HC HQ HE. split.
  - eapply Forall_impl; [exact HC | exact Hc].
  - destruct (result (m w)); auto.
Qed.

(** A loop keeps what every turn keeps. *)
Lemma wp_forEach {A} (l : list A) (f : A -> M num unit) C
  (I : World num -> Prop) E w :
  I w ->
  (forall x w', In x l -> I w' -> wp (f x) C (fun _ => I) E w') ->
  wp (forEach l f) C (fun _ => I) E w.
Proof.
  revert w. induction l as [|x rest IH]; intros w Hw Hf; cbn [forEach].
  - apply wp_ret. exact Hw.
  - apply wp_bind. eapply wp_mono.
    + apply Hf; [left; reflexivity | exact Hw].
    + auto.
    + cbn beta. intros _ w' Hw'. apply IH; [exact Hw' |].
      intros y w'' Hy. apply Hf. right. exact Hy.
    + auto.
Qed.

End Logic.

Ltac wp_step :=
  lazymatch goal with
  | |- wp (bind _ _) _ _ _ _ => apply wp_bind
  | |- wp (get _) _ _ _ _ => apply wp_get
  | |- wp (modify _) _ _ _ _ => apply wp_modify
  | |- wp (ret _) _ _ _ _ => apply wp_ret
  | |- wp (throw _) _ _ _ _ => apply wp_throw
  | |- wp (emit _) _ _ _ _ => apply wp_emit
  end;
  cbn beta.

(** * Properties

    ** Objects *)

Section Objects.
Context {V : Type}.

Lemma obj_get_set_same (k : string) (v : V) (o : obj V) :
  obj_get k (obj_set k v o) = Some v.
Proof.
  induction o as [|[k' v'] rest IH]; simpl.
  - now rewrite String.eqb_refl.
  - destruct (String.eqb k k') eqn:E; simpl; rewrite E; auto.
Qed.

Lemma obj_keys_set (k : string) (v v0 : V) (o : obj V) :
  obj_get k o = Some v0 -> obj_keys (obj_set k v o) = obj_keys o.
Proof.
  unfold obj_keys.
  induction o as [|[k' v'] rest IH]; simpl; [discriminate|].
  destruct (String.eqb k k') eqn:E; simpl; intros H.
  - reflexivity.
  - f_equal. now apply IH.
Qed.

Lemma obj_get_update_same (k : string) (f : V -> V) (o : obj V) :
  obj_get k (obj_update k f o) = option_map f (obj_get k o).
Proof.
  induction o as [|[k' v'] rest IH]; simpl; [reflexivity|].
  destruct (String.eqb k k') eqn:E; simpl; rewrite E; auto.
Qed.

Lemma obj_keys_update (k : string) (f : V -> V) (o : obj V) :
  obj_keys (obj_update k f o) = obj_keys o.
Proof.
  unfold obj_keys. induction o as [|[k' v'] rest IH]; simpl; [reflexivity|].
  destruct (String.eqb k k'); simpl; [reflexivity | now rewrite IH].
Qed.

Lemma obj_get_keys (k : string) (o : obj V) :
  In k (obj_keys o) -> exists v, obj_get k o = Some v.
Proof.
  induction o as [|[k' v'] rest IH]; simpl; [tauto|].
  intros [->|H].
  - rewrite String.eqb_refl. eauto.
  - destruct (String.eqb k k'); eauto.
Qed.

End Objects.

(** ** Uniform accessors *)

Section Uniforms.
Context {num : Type} {NUM : JSNumber num}.

Lemma entry_point_upload (type : uniform_type) (location : handle) (v : value num) :
  entry_point (upload type location v) = Some type.
Proof. destruct type; reflexivity. Qed.

(** C1 (amended): for a registered uniform of any of the eight kinds whose
    location lookup returned a handle, a write through the accessor returns
    normally, a read gives back exactly the written value, and the write
    makes one call on the context: the upload of [setUniform]'s switch,
    which is the entry point of the uniform's kind. *)
Theorem uniform_write_read_upload
  (w : World num) (name : string) (u : UniformConfig num)
  (location : handle) (v : value num) :
  mem name (accessors (uniforms (this w))) = true ->
  obj_get name (data_uniforms (this w)) = Some u ->
  u_location u = Some location ->
  let r := uniforms_set name v w in
  result r = inr tt
  /\ uniforms_get name (world r) = Some v
  /\ calls r = [upload (u_type u) location v]
  /\ entry_point (upload (u_type u) location v) = Some (u_type u).
Proof.
  intros Hacc Hget Hloc r. subst r.
  unfold uniforms_set, uniforms_get, setUniform, update_uniform, bind, get, modify, emit.
  repeat (progress (cbn; rewrite ?Hacc, ?Hget, ?obj_get_update_same, ?obj_get_set_same, ?Hloc)).
  repeat split. apply entry_point_upload.
Qed.
End Uniforms.

Ltac wp_case :=
  match goal with
  | |- wp (if ?b then _ else _) _ _ _ _ => destruct b eqn:?
  | |- wp (match ?x with _ => _ end) _ _ _ _ => destruct x eqn:?
  end.

Ltac wp_auto := repeat (first [ wp_step | wp_case ]); cbn beta; auto.

(** ** Nothing but [_update] clears or draws *)

Section Quiet.
Context {num : Type} {NUM : JSNumber num}.

Lemma no_draw_upload type location (v : value num) : no_draw (upload type location v).
Proof. destruct type; reflexivity. Qed.

Lemma uniforms_set_keeps_count name v (w : World num) :
  wp (uniforms_set name v) no_draw
     (fun _ w' => count (this w') = count (this w)) never w.
Proof.
  unfold uniforms_set, setUniform, update_uniform. wp_auto.
  all: apply no_draw_upload.
Qed.

Lemma destroy_no_draw (w : World num) :
  wp destroy no_draw anything anything w.
Proof.
  unfold destroy, stop_animation_loop, remove_event_listeners, clean_up_webgl,
    remove_canvas, cancelAnimationFrame_, removeEventListener_.
  wp_auto; try exact I; try reflexivity.
  all: eapply wp_mono;
    [ apply (wp_forEach _ _ no_draw (fun _ => True) anything);
      [ exact I | intros; wp_auto; reflexivity ]
    | auto .. ]; intros; wp_auto; try exact I; reflexivity.
Qed.

Lemma run_api_no_draw (a : api num) w :
  wp (run_api a) no_draw anything anything w.
Proof.
  destruct a; cbn [run_api].
  - apply destroy_no_draw.
  - eapply wp_mono; [ apply uniforms_set_keeps_count | auto .. ]; easy.
  - unfold buffers_set, setBuffer, update_buffer, gl_bindBuffer.
    wp_auto; try exact I; try reflexivity.
  - unfold setBuffer, gl_bindBuffer. wp_auto; try exact I; try reflexivity.
Qed.

Lemma run_callback_no_draw (body : list (api num)) w :
  wp (run_callback body) no_draw anything anything w.
Proof.
  unfold run_callback.
  eapply wp_mono;
    [ apply (wp_forEach _ _ no_draw (fun _ => True) anything);
      [ exact I | intros; apply run_api_no_draw ]
    | auto .. ].
Qed.
End Quiet.

(** ** The vertex count *)

Section Frames.

Lemma real_gtb_0_0 : real_gtb 0 0 = false.
Proof. unfold real_gtb. destruct (Rlt_dec 0 0); [lra | reflexivity]. Qed.

(** A frame that starts with [count] 0 neither clears nor draws. *)
Lemma update_idle (w : World R) :
  count (this w) = 0%R -> wp _update no_draw anything anything w.
Proof.
  intros Hcount. unfold _update, performance_now_, requestAnimationFrame_.
  wp_auto.
  eapply wp_mono; [ apply uniforms_set_keeps_count | auto .. ]; [| easy].
  cbn beta. intros _ w' Hw'. cbn in Hw'. rewrite Hcount in Hw'.
  wp_step. wp_step. rewrite Hw'.
  change (0%R >? of_Z 0)%js with (real_gtb 0 0). rewrite real_gtb_0_0.
  wp_auto.
  eapply wp_mono; [ apply run_callback_no_draw | auto .. ].
  intros; wp_auto; try exact I; reflexivity.
Qed.

Lemma thirds (N : nat) : (IZR (Z.of_nat (3 * N)) / 3 = IZR (Z.of_nat N))%R.
Proof. rewrite Nat2Z.inj_mul, mult_IZR. simpl (IZR (Z.of_nat 3)). field. Qed.

(** C2: over the real numbers, a write of an array to the accessor
    [position] of an instance that registered it returns normally; if the
    array holds [3 * N] numbers the count becomes exactly [N]; if it is
    empty the count becomes 0; and a frame that starts with count 0 makes no
    clear and no draw call. *)
Theorem position_write_sets_count
  (w : World R) (data : list R) (b : BufferConfig R) :
  mem "position" (accessors (buffers (this w))) = true ->
  obj_get "position" (data_buffers (this w)) = Some b ->
  let r := buffers_set "position" data w in
  result r = inr tt
  /\ (forall N, List.length data = 3 * N -> count (this (world r)) = IZR (Z.of_nat N))
  /\ (data = [] -> count (this (world r)) = 0%R)
  /\ (forall w' : World R, count (this w') = 0%R ->
        Forall (fun c => is_draw c = false) (calls (_update w'))).
Proof.
  intros Hacc Hget r. subst r.
  unfold buffers_set, setBuffer, update_buffer, gl_bindBuffer, bind, get, modify, emit.
  repeat (progress (cbn; rewrite ?Hacc, ?Hget, ?obj_get_update_same, ?obj_get_set_same)).
  split; [reflexivity|]. split; [|split].
  - intros N HN. rewrite HN. apply thirds.
  - intros ->. cbn. apply (thirds 0).
  - intros w' Hw'. apply (update_idle w' Hw').
Qed.
End Frames.

(** ** The vertex count in doubles *)

Section Doubles.

(** [3N / 3] is [N] in doubles for every [N] below 2^20, by evaluation. *)
Example thirds_double : thirds_exact (Z.to_nat 1048576) 0 = true.
Proof. vm_compute. reflexivity. Qed.

Lemma thirds_exact_spec (fuel : nat) (n : Z) (k : nat) :
  thirds_exact fuel n = true -> (k < fuel)%nat ->
  PrimFloat.div (float_of_Z (3 * (n + Z.of_nat k))) (float_of_Z 3)
  = float_of_Z (n + Z.of_nat k).
Proof.
  revert n k. induction fuel as [|fuel IH]; intros n k H Hk; [inversion Hk|].
  cbn [thirds_exact] in H. apply andb_prop in H. destruct H as [H0 H].
  destruct k as [|k].
  - rewrite Z.add_0_r. apply FloatAxioms.Leibniz.eqb_spec. exact H0.
  - replace (n + Z.of_nat (S k))%Z with ((n + 1) + Z.of_nat k)%Z
      by (rewrite Nat2Z.inj_succ; ring).
    apply IH; [exact H | apply PeanoNat.lt_S_n, Hk].
Qed.

(** A write of [3 * N] numbers to [position], for [N] below 2^20, sets the
    count to exactly [N] in doubles as well. *)
Lemma position_write_sets_count_double
  (w : World PrimFloat.float) (data : list PrimFloat.float)
  (b : BufferConfig PrimFloat.float) (N : nat) :
  mem "position" (accessors (buffers (this w))) = true ->
  obj_get "position" (data_buffers (this w)) = Some b ->
  List.length data = 3 * N -> (N < Z.to_nat 1048576)%nat ->
  count (this (world (buffers_set "position" data w))) = float_of_Z (Z.of_nat N).
Proof.
  intros Hacc Hget HN Hlt.
  unfold buffers_set, setBuffer, update_buffer, gl_bindBuffer, bind, get, modify, emit.
  repeat (progress (cbn; rewrite ?Hacc, ?Hget, ?obj_get_update_same, ?obj_get_set_same)).
  rewrite HN, Nat2Z.inj_mul.
  apply (thirds_exact_spec _ 0 N thirds_double Hlt).
Qed.
End Doubles.

(** ** destroy *)

Section Teardown.
Context {num : Type} {NUM : JSNumber num}.

Lemma wp_returns {A} (m : M num A) C Q w :
  wp m C Q never w ->
  exists a, result (m w) = inr a /\ Q a (world (m w)) /\ Forall C (calls (m w)).
Proof.
  unfold wp. intros [Hc Hr]. destruct (result (m w)) as [e|a]; [destruct Hr|].
  exists a. auto.
Qed.

Lemma wp_of_run {A} (m : M num A) C (Q : A -> World num -> Prop) E w cs w' a :
  m w = {| calls := cs; world := w'; result := inr a |} ->
  Forall C cs -> Q a w' -> wp m C Q E w.
Proof. unfold wp. intros -> Hc Hq. cbn. auto. Qed.

Lemma bind_returns {A B} (m : M num A) (k : A -> M num B) w a :
  result (m w) = inr a ->
  bind m k w = {| calls := calls (m w) ++ calls (k a (world (m w)));
                  world := world (k a (world (m w)));
                  result := result (k a (world (m w))) |}.
Proof. unfold bind. intros ->. reflexivity. Qed.

Lemma forEach_delete (bs : list (BufferConfig num)) (w : World num) :
  forEach bs (fun buffer =>
    match b_buffer buffer with
    | Some b => emit (gl_deleteBuffer b)
    | None => ret tt
    end) w
  = {| calls := flat_map delete_buffer bs; world := w; result := inr tt |}.
Proof.
  induction bs as [|b rest IH]; cbn [forEach flat_map]; [reflexivity|].
  unfold bind. unfold delete_buffer at 1.
  destruct (b_buffer b); cbn; rewrite IH; reflexivity.
Qed.

Lemma clean_up_webgl_run (w : World num) :
  clean_up_webgl w = {| calls := gl_releases (this w); world := w; result := inr tt |}.
Proof.
  unfold clean_up_webgl, gl_releases, bind, get. cbn. rewrite forEach_delete. cbn.
  destruct (texture (this w)); cbn; destruct (program (this w)); cbn;
    rewrite ?app_nil_r; reflexivity.
Qed.

Lemma stop_animation_loop_keeps (w : World num) :
  wp stop_animation_loop any_call
     (fun _ w' => animationFrameId (this w') = None /\ same_gl w w'
                  /\ resizeHandler (this w') = resizeHandler (this w)
                  /\ mousemoveHandler (this w') = mousemoveHandler (this w)
                  /\ canvas_parentNode (page w') = canvas_parentNode (page w))
     never w.
Proof.
  unfold stop_animation_loop, cancelAnimationFrame_. wp_auto; try exact I.
  all: unfold same_gl; cbn; auto 10.
Qed.

Lemma remove_event_listeners_keeps (w : World num) :
  wp remove_event_listeners any_call
     (fun _ w' => resizeHandler (this w') = false
                  /\ mousemoveHandler (this w') = false /\ same_gl w w'
                  /\ animationFrameId (this w') = animationFrameId (this w)
                  /\ canvas_parentNode (page w') = canvas_parentNode (page w))
     never w.
Proof.
  unfold remove_event_listeners, removeEventListener_. wp_auto; try exact I.
  all: unfold same_gl; cbn in *; auto 10.
Qed.

Lemma remove_canvas_keeps (w : World num) :
  wp remove_canvas any_call
     (fun _ w' => canvas_parentNode (page w') = false /\ this w' = this w)
     never w.
Proof.
  unfold remove_canvas. wp_auto; try exact I.
Qed.

(** One [destroy] returns, leaves the instance torn down and keeps the
    handles of the context in its fields; among its calls are the releases
    of all of them. *)
Lemma destroy_leaves (w : World num) :
  let r := destroy w in
  result r = inr tt
  /\ torn_down (world r)
  /\ same_gl w (world r)
  /\ exists before after, calls r = before ++ gl_releases (this w) ++ after.
Proof.
  destruct (wp_returns _ _ _ _ (stop_animation_loop_keeps w))
    as ([] & R1 & (F1 & (B1 & T1 & P1) & RH1 & MH1 & CP1) & _).
  set (w1 := world (stop_animation_loop w)) in *.
  destruct (wp_returns _ _ _ _ (remove_event_listeners_keeps w1))
    as ([] & R2 & (RH2 & MH2 & (B2 & T2 & P2) & F2 & CP2) & _).
  set (w2 := world (remove_event_listeners w1)) in *.
  destruct (wp_returns _ _ _ _ (remove_canvas_keeps w2)) as ([] & R3 & (CP3 & T3) & _).
  cbn zeta. unfold destroy.
  rewrite (bind_returns _ _ _ _ R1). fold w1.
  rewrite (bind_returns _ _ _ _ R2). fold w2.
  rewrite (bind_returns clean_up_webgl _ w2 tt)
    by (rewrite clean_up_webgl_run; reflexivity).
  rewrite clean_up_webgl_run. cbn [calls world result].
  split; [exact R3|]. split; [|split].
  - unfold torn_down. rewrite T3. rewrite F2, F1, RH2, MH2, CP3. auto.
  - unfold same_gl. rewrite T3, B2, T2, P2, B1, T1, P1. auto.
  - exists (calls (stop_animation_loop w) ++ calls (remove_event_listeners w1)),
           (calls (remove_canvas w2)).
    unfold gl_releases. rewrite B2, T2, P2, B1, T1, P1.
    rewrite <- !app_assoc. reflexivity.
Qed.

Lemma stop_animation_loop_idle (w : World num) :
  animationFrameId (this w) = None ->
  stop_animation_loop w = {| calls := []; world := w; result := inr tt |}.
Proof. intros H. unfold stop_animation_loop, bind, get. cbn. rewrite H. reflexivity. Qed.

Lemma remove_event_listeners_idle (w : World num) :
  resizeHandler (this w) = false -> mousemoveHandler (this w) = false ->
  remove_event_listeners w = {| calls := []; world := w; result := inr tt |}.
Proof.
  intros H1 H2. unfold remove_event_listeners, bind, get. cbn.
  rewrite H1. cbn. rewrite H2. reflexivity.
Qed.

Lemma remove_canvas_idle (w : World num) :
  canvas_parentNode (page w) = false ->
  remove_canvas w = {| calls := []; world := w; result := inr tt |}.
Proof. intros H. unfold remove_canvas, bind, get. cbn. rewrite H. reflexivity. Qed.

(** A [destroy] of a torn-down instance makes exactly the calls that release
    the handles in its fields, whether or not they were released before. *)
Lemma destroy_when_torn_down (w : World num) :
  torn_down w ->
  destroy w = {| calls := gl_releases (this w); world := w; result := inr tt |}.
Proof.
  intros (F & RH & MH & CP).
  unfold destroy, bind.
  rewrite (stop_animation_loop_idle w F). cbn [calls world result].
  rewrite (remove_event_listeners_idle w RH MH). cbn [calls world result].
  rewrite clean_up_webgl_run. cbn [calls world result].
  rewrite (remove_canvas_idle w CP). cbn [calls world result app].
  rewrite app_nil_r. reflexivity.
Qed.

Lemma destroy_twice (w : World num) :
  let r1 := destroy w in
  let r2 := destroy (world r1) in
  result r2 = inr tt
  /\ calls r2 = gl_releases (this w)
  /\ forall c, In c (calls r2) -> In c (calls r1).
Proof.
  destruct (destroy_leaves w) as (R1 & TD & (B & T & P) & before & after & Hc).
  cbn zeta. rewrite (destroy_when_torn_down _ TD). cbn [calls world result].
  assert (G : gl_releases (this (world (destroy w))) = gl_releases (this w))
    by (unfold gl_releases; rewrite B, T, P; reflexivity).
  rewrite G, Hc. repeat split. intros c Hin.
  apply in_or_app. right. apply in_or_app. left. exact Hin.
Qed.
End Teardown.

(** ** Buffer accessors *)

Section Buffers.
Context {num : Type} {NUM : JSNumber num}.

Ltac known_key :=
  repeat match goal with
  | H : String.eqb _ _ = true |- _ => apply String.eqb_eq in H; subst
  end;
  cbn in *; rewrite ?obj_get_update_same in *;
  repeat match goal with
  | H : obj_get ?k ?o = Some _, H' : context [obj_get ?k ?o] |- _ =>
      rewrite H in H'; cbn in H'
  end.

Lemma buffers_set_keeps_keys name data (w : World num) :
  wp (buffers_set name data) any_call
     (fun _ w' => obj_keys (data_buffers (this w')) = obj_keys (data_buffers (this w)))
     never w.
Proof.
  unfold buffers_set, setBuffer, update_buffer, gl_bindBuffer. wp_auto; try exact I.
  all: known_key; try discriminate.
  all: apply obj_keys_update.
Qed.

Lemma updateBuffers_unbinds (w : World num) :
  wp updateBuffers any_call
     (fun _ w' => ARRAY_BUFFER_BINDING (page w') = None) never w.
Proof.
  unfold updateBuffers. wp_step. wp_step. wp_step.
  eapply wp_mono.
  - apply (wp_forEach _ _ any_call
             (fun w' => obj_keys (data_buffers (this w')) = obj_keys (data_buffers (this w)))
             never).
    + reflexivity.
    + intros name w' Hin Hkeys. wp_step. wp_step.
      rewrite <- Hkeys in Hin. destruct (obj_get_keys _ _ Hin) as [b Hb].
      rewrite Hb. eapply wp_mono; [apply buffers_set_keeps_keys | auto ..].
      cbn beta. intros _ w'' H. congruence.
  - auto.
  - cbn beta. intros _ w' _. unfold setBuffer, gl_bindBuffer. wp_auto; exact I.
  - auto.
Qed.

(** C5 (amended): [updateBuffers], which writes every registered buffer
    through its accessor and then calls [setBuffer(null)], returns with no
    buffer bound to [ARRAY_BUFFER]; so does [setBuffer(null)] on its own; a
    single write through the accessor of a registered buffer returns with
    that buffer's handle bound. *)
Theorem buffer_binding_after_writes (w : World num) :
  (result (updateBuffers w) = inr tt
   /\ ARRAY_BUFFER_BINDING (page (world (updateBuffers w))) = None)
  /\ ARRAY_BUFFER_BINDING (page (world (setBuffer None None w))) = None
  /\ forall name b data,
       mem name (accessors (buffers (this w))) = true ->
       obj_get name (data_buffers (this w)) = Some b ->
       result (buffers_set name data w) = inr tt
       /\ ARRAY_BUFFER_BINDING (page (world (buffers_set name data w))) = b_buffer b.
Proof.
  split; [|split].
  - destruct (wp_returns _ _ _ _ (updateBuffers_unbinds w)) as ([] & R & B & _). auto.
  - reflexivity.
  - intros name b data Hacc Hget.
    unfold buffers_set, setBuffer, update_buffer, gl_bindBuffer, bind, get, modify, emit.
    repeat (progress (cbn; rewrite ?Hacc, ?Hget, ?obj_get_update_same, ?obj_get_set_same)).
    destruct (String.eqb name "position") eqn:E; cbn.
    + apply String.eqb_eq in E. subst name.
      repeat (progress (cbn; rewrite ?Hacc, ?Hget, ?obj_get_update_same, ?obj_get_set_same)). auto.
    + auto.
Qed.
End Buffers.

(** ** setProjection *)

Section Projection.
Context {num : Type} {NUM : JSNumber num}.

(** C6 (amended): [setProjection] makes no call and returns a matrix that
    is a function of the camera record, the width and height of the
    instance and the aspect ratio it is given; in orthographic mode it
    leaves the world as it was, in perspective mode it changes exactly one
    thing, [camera.aspect], which takes the aspect ratio it is given. *)
Theorem setProjection_effect (w : World num) (a : num) :
  let r := setProjection a w in
  calls r = []
  /\ result r = inr (projection_of (camera (this w)) (width (this w)) (height (this w)) a)
  /\ world r = if perspective (camera (this w))
               then on_this (fun t => set_camera (set_c_aspect a (camera t)) t) w
               else w.
Proof.
  unfold setProjection, projection_of, bind, get, modify, ret. cbn.
  destruct (perspective (camera (this w))); cbn; auto.
Qed.
End Projection.

Section Numbers.

(** C8: over the real numbers, with perspective on, fov 60, near 1, far
    10000, z 100 and aspect 1, entry 5 of the matrix is within 1e-6 of
    [tan (pi/2 - 0.5 * (60 * pi / 180))], and entries 14 and 15 are those of
    the matrix before the translation plus exactly 100. *)
Theorem default_camera_projection (w : World R) :
  let r := setProjection 1%R (on_this (set_camera default_camera) w) in
  let untranslated := perspective_literal (default_camera (num := R)) in
  exists m,
    result r = inr m
    /\ (Rabs (nth 5 m 0 - tan (PI / 2 - 0.5 * (60 * PI / 180))) < 1e-6)%R
    /\ (nth 14 m 0 = nth 14 untranslated 0 + 100)%R
    /\ (nth 15 m 0 = nth 15 untranslated 0 + 100)%R.
Proof.
  cbn zeta. eexists. split; [reflexivity|]. cbn.
  split; [|split; reflexivity].
  replace (PI * (1 / 2) - 1 / 2 * (60 * (PI / 180)))%R
    with (PI / 2 - 0.5 * (60 * PI / 180))%R by lra.
  rewrite Rminus_diag, Rabs_R0. lra.
Qed.

(** In doubles the same entries, bit for bit, whatever tangent the engine
    has: the argument of the tangent does not depend on how
    [pi/2 - 0.5 * (60 * pi / 180)] is bracketed. *)
Lemma default_camera_projection_double
  (engine_tan : PrimFloat.float -> PrimFloat.float) (w : World PrimFloat.float) :
  let N := IEEE_double engine_tan in
  let r := @setProjection _ N 1%float (on_this (set_camera (@default_camera _ N)) w) in
  let untranslated := @perspective_literal _ N (@default_camera _ N) in
  exists m,
    result r = inr m
    /\ nth 5 m 0%float
       = engine_tan (PrimFloat.sub (PrimFloat.div float_PI 2)
           (PrimFloat.mul 0.5 (PrimFloat.div (PrimFloat.mul 60 float_PI) 180)))
    /\ nth 14 m 0%float = PrimFloat.add (nth 14 untranslated 0%float) 100
    /\ nth 15 m 0%float = PrimFloat.add (nth 15 untranslated 0%float) 100
    /\ nth 15 m 0%float = 100%float.
Proof.
  cbn zeta. eexists. split; [reflexivity|].
  repeat split; vm_compute; reflexivity.
Qed.
End Numbers.

(** ** Names without a location, names never registered *)

Section Names.
Context {num : Type} {NUM : JSNumber num}.

(** C10: for a registered uniform whose location lookup returned no
    handle, a write through the accessor returns normally and stores the
    value, a read gives back exactly the written value, and the write makes
    no call at all. *)
Theorem uniform_write_without_location
  (w : World num) (name : string) (u : UniformConfig num) (v : value num) :
  mem name (accessors (uniforms (this w))) = true ->
  obj_get name (data_uniforms (this w)) = Some u ->
  u_location u = None ->
  let r := uniforms_set name v w in
  result r = inr tt
  /\ uniforms_get name (world r) = Some v
  /\ calls r = [].
Proof.
  intros Hacc Hget Hloc r. subst r.
  unfold uniforms_set, uniforms_get, setUniform, update_uniform, bind, get, modify, emit.
  repeat (progress (cbn; rewrite ?Hacc, ?Hget, ?obj_get_update_same, ?obj_get_set_same, ?Hloc)).
  auto.
Qed.

(** Writes to a name that was never registered, where they are silent. *)
Lemma unregistered_uniform_write (w : World num) (name : string) (v : value num) :
  mem name (accessors (uniforms (this w))) = false ->
  let r := uniforms_set name v w in
  result r = inr tt /\ calls r = [] /\ uniforms_get name (world r) = Some v.
Proof.
  intros Hacc. unfold uniforms_set, uniforms_get, bind, get, modify.
  repeat (progress (cbn; rewrite ?Hacc, ?obj_get_update_same, ?obj_get_set_same)). auto.
Qed.

Lemma unregistered_setUniform (w : World num) (name : string) (v : value num) :
  obj_get name (data_uniforms (this w)) = None ->
  setUniform name v w = {| calls := []; world := w; result := inr tt |}.
Proof. intros H. unfold setUniform, bind, get. cbn. rewrite H. reflexivity. Qed.

Lemma unregistered_buffer_write (w : World num) (name : string) (data : list num) :
  mem name (accessors (buffers (this w))) = false ->
  let r := buffers_set name data w in
  result r = inr tt /\ calls r = [] /\ buffers_get name (world r) = Some data.
Proof.
  intros Hacc. unfold buffers_set, buffers_get, bind, get, modify.
  repeat (progress (cbn; rewrite ?Hacc, ?obj_get_update_same, ?obj_get_set_same)). auto.
Qed.

Lemma unregistered_setBuffer_without_data (w : World num) (name : string) :
  setBuffer (Some name) None w = {| calls := []; world := w; result := inr tt |}.
Proof. reflexivity. Qed.

(** With data, [setBuffer] reads [.buffer] of [undefined]. *)
Lemma unregistered_setBuffer (w : World num) (name : string) (data : list num) :
  obj_get name (data_buffers (this w)) = None ->
  setBuffer (Some name) (Some data) w
  = {| calls := []; world := w;
       result := inl (TypeError "Cannot read properties of undefined (reading 'buffer')") |}.
Proof. intros H. unfold setBuffer, bind, get. cbn. rewrite H. reflexivity. Qed.
End Names.

(** ** The frame loop and destroy *)

Section Scheduling.
Context {num : Type} {NUM : JSNumber num}.

(** Called between frames, with the one pending request on record,
    [destroy] leaves no request pending: no frame runs afterwards. *)
Lemma destroy_cancels_pending (w : World num) (id : nat) :
  animationFrameId (this w) = Some id ->
  frames (page w) = [id] ->
  result (destroy w) = inr tt /\ frames (page (world (destroy w))) = [].
Proof.
  intros Hid Hframes.
  assert (H : wp destroy any_call (fun _ w' => frames (page w') = []) never w).
  { unfold destroy, stop_animation_loop, remove_event_listeners, remove_canvas,
      cancelAnimationFrame_, removeEventListener_.
    wp_step. wp_step. wp_step. rewrite Hid. wp_auto; try exact I.
    all: eapply wp_of_run;
      [ apply clean_up_webgl_run | apply Forall_forall; intros; exact I | ].
    all: wp_auto; try exact I.
    all: cbn; rewrite Hframes; cbn; rewrite Nat.eqb_refl; reflexivity. }
  destruct (wp_returns _ _ _ _ H) as ([] & R & F & _). auto.
Qed.

(** A frame that is not pending does not run. *)
Lemma no_pending_no_frame (w : World num) (id : nat) :
  frames (page w) = [] ->
  dispatch (on_frame id) w = {| calls := []; world := w; result := inr tt |}.
Proof. intros H. unfold dispatch, bind, get. cbn. rewrite H. reflexivity. Qed.
End Scheduling.

(** ** destroy from inside the frame loop *)

Section Looping.
Context {num : Type} {NUM : JSNumber num}.

Lemma uniforms_set_keeps_callback name v (w : World num) :
  wp (uniforms_set name v) any_call
     (fun _ w' => onUpdate (this w') = onUpdate (this w)
                  /\ count (this w') = count (this w)
                  /\ page w' = page w) never w.
Proof.
  unfold uniforms_set, setUniform, update_uniform. wp_auto; try exact I.
  all: cbn; auto.
Qed.

Lemma destroy_keeps_callback (w : World num) :
  wp destroy any_call
     (fun _ w' => onUpdate (this w') = onUpdate (this w)
                  /\ next_frame (page w') = next_frame (page w)) never w.
Proof.
  unfold destroy, stop_animation_loop, remove_event_listeners, remove_canvas,
    cancelAnimationFrame_, removeEventListener_.
  wp_auto; try exact I.
  all: eapply wp_of_run;
    [ apply clean_up_webgl_run | apply Forall_forall; intros; exact I | ].
  all: wp_auto; try exact I.
  all: cbn; auto.
Qed.

(** A frame whose [onUpdate] calls [destroy] requests the next frame all
    the same, and leaves the callback in place for it. *)
Lemma frame_reschedules_after_destroy (w : World num) (id : nat) :
  existsb (Nat.eqb id) (frames (page w)) = true ->
  (forall delta, onUpdate (this w) delta = [api_destroy]) ->
  let r := dispatch (on_frame id) w in
  result r = inr tt
  /\ existsb (Nat.eqb (next_frame (page w))) (frames (page (world r))) = true
  /\ (forall delta, onUpdate (this (world r)) delta = [api_destroy]).
Proof.
  intros Hid Hcb.
  assert (H : wp (dispatch (on_frame id)) any_call
                (fun _ w' =>
                   existsb (Nat.eqb (next_frame (page w))) (frames (page w')) = true
                   /\ onUpdate (this w') = onUpdate (this w)) never w).
  { unfold dispatch, _update, performance_now_, requestAnimationFrame_.
    wp_step. wp_step. rewrite Hid. wp_auto.
    eapply wp_mono; [ apply uniforms_set_keeps_callback | auto .. ].
    cbn beta. intros _ w1 (C1 & _ & P1). cbn in C1, P1.
    wp_auto; try exact I.
    all: rewrite C1, Hcb; unfold run_callback; cbn [forEach run_api].
    all: wp_step; eapply wp_mono; [ apply destroy_keeps_callback | auto .. ].
    all: cbn beta; intros _ w2 (C2 & N2); wp_auto; try exact I.
    all: cbn; rewrite N2, P1, C2, C1; cbn; split; [|reflexivity].
    all: rewrite existsb_app; cbn; rewrite Nat.eqb_refl; apply orb_true_r. }
  destruct H as [_ H]. cbn zeta.
  destruct (result (dispatch (on_frame id) w)) as [e|[]]; [destruct H|].
  destruct H as [F C]. split; [reflexivity|]. split; [exact F|].
  intros delta. rewrite C. apply Hcb.
Qed.
End Looping.

(** ** Registration

    Once the constructor has registered the names, nothing unregisters
    them: not the writes, not the frame loop, not [destroy]. *)

Section Registration.
Context {num : Type} {NUM : JSNumber num}.

Arguments obj_keys : simpl never.

Ltac reg :=
  try exact I;
  unfold registered in *; cbn in *; rewrite ?obj_keys_update; try tauto.

Ltac wp_use lemma :=
  eapply wp_mono; [ apply lemma; reg | auto .. ]; cbn beta; intros.

Variables Kb Ku : list string.
Lemma uniforms_set_registered name v : keeps (num := num) Kb Ku (uniforms_set name v).
Proof.
  intros w R. unfold uniforms_set, setUniform, update_uniform. wp_auto; reg.
Qed.

Lemma setBuffer_registered name data : keeps (num := num) Kb Ku (setBuffer name data).
Proof.
  intros w R. unfold setBuffer, gl_bindBuffer. wp_auto; reg.
Qed.

Lemma buffers_set_registered name data : keeps (num := num) Kb Ku (buffers_set name data).
Proof.
  intros w R. unfold buffers_set, setBuffer, update_buffer, gl_bindBuffer. wp_auto; reg.
Qed.

Lemma destroy_registered : keeps (num := num) Kb Ku destroy.
Proof.
  intros w R.
  unfold destroy, stop_animation_loop, remove_event_listeners, remove_canvas,
    cancelAnimationFrame_, removeEventListener_.
  wp_auto; reg.
  all: eapply wp_of_run;
    [ apply clean_up_webgl_run | apply Forall_forall; intros; exact I | ].
  all: wp_auto; reg.
Qed.

Lemma run_callback_registered body : keeps (num := num) Kb Ku (run_callback body).
Proof.
  intros w R. unfold run_callback.
  apply wp_forEach; [exact R|]. intros a w' _ R'.
  destruct a; cbn [run_api].
  - apply destroy_registered, R'.
  - apply uniforms_set_registered, R'.
  - apply buffers_set_registered, R'.
  - apply setBuffer_registered, R'.
Qed.

Lemma setProjection_registered a : keeps (num := num) Kb Ku (setProjection a).
Proof. intros w R. unfold setProjection. wp_auto; reg. Qed.

Lemma resize_registered : keeps (num := num) Kb Ku resize.
Proof.
  intros w R. unfold resize. wp_auto; try exact I.
  wp_use uniforms_set_registered. wp_step.
  wp_use setProjection_registered. wp_step.
  wp_use uniforms_set_registered. wp_auto.
  apply run_callback_registered; reg.
Qed.

Lemma update_registered : keeps (num := num) Kb Ku _update.
Proof.
  intros w R. unfold _update, performance_now_, requestAnimationFrame_.
  wp_auto; try exact I.
  wp_use uniforms_set_registered. wp_auto; try exact I.
  all: wp_use run_callback_registered; wp_auto; reg.
Qed.
Lemma updateBuffers_registered : keeps (num := num) Kb Ku updateBuffers.
Proof.
  intros w R. unfold updateBuffers. wp_auto.
  eapply (wp_mono _ any_call any_call (fun _ => registered Kb Ku) _ anything anything).
  - apply wp_forEach; [exact R|]. intros name w' _ R'. wp_auto; try exact I.
    apply buffers_set_registered, R'.
  - auto.
  - cbn beta. intros _ w' R'. apply setBuffer_registered, R'.
  - auto.
Qed.

Lemma updateUniforms_registered : keeps (num := num) Kb Ku updateUniforms.
Proof.
  intros w R. unfold updateUniforms. wp_auto.
  apply wp_forEach; [exact R|]. intros name w' _ R'. wp_auto; try exact I.
  apply uniforms_set_registered, R'.
Qed.

Lemma createTexture_registered src : keeps (num := num) Kb Ku (createTexture src).
Proof.
  intros w R. unfold createTexture, allocate, loadTexture. wp_auto; try exact I.
  wp_use uniforms_set_registered. wp_auto. exact I.
Qed.
End Registration.

(** ** The constructor *)

Section Construction.
Context {num : Type} {NUM : JSNumber num}.

Arguments obj_keys : simpl never.

Lemma wp_forEach_prefix {A} (l : list A) (f : A -> M num unit) C
  (I : list A -> World num -> Prop) E w :
  I [] w ->
  (forall done x w', I done w' -> wp (f x) C (fun _ => I (done ++ [x])) E w') ->
  wp (forEach l f) C (fun _ => I l) E w.
Proof.
  intros H0 Hf.
  enough (G : forall done w, I done w ->
                wp (forEach l f) C (fun _ => I (done ++ l)) E w)
    by (apply (G [] w H0)).
  clear w H0. induction l as [|x rest IH]; intros done w Hw; cbn [forEach].
  - apply wp_ret. rewrite app_nil_r. exact Hw.
  - apply wp_bind. eapply wp_mono; [apply Hf, Hw | auto | | auto].
    cbn beta. intros _ w' Hw'.
    replace (done ++ x :: rest) with ((done ++ [x]) ++ rest)
      by (rewrite <- app_assoc; reflexivity).
    apply IH, Hw'.
Qed.

Lemma createBuffers_registers (data : obj (BufferConfig num)) (w : World num) :
  wp (createBuffers data) any_call
     (fun _ w' => accessors (buffers (this w')) = obj_keys data
                  /\ obj_keys (data_buffers (this w')) = obj_keys data
                  /\ uniforms (this w') = uniforms (this w)
                  /\ data_uniforms (this w') = data_uniforms (this w))
     anything w.
Proof.
  unfold createBuffers. wp_step. wp_step. wp_step. wp_step.
  apply (wp_forEach_prefix _ _ _
    (fun done w' => accessors (buffers (this w')) = done
                    /\ obj_keys (data_buffers (this w')) = obj_keys data
                    /\ uniforms (this w') = uniforms (this w)
                    /\ data_uniforms (this w') = data_uniforms (this w))).
  - cbn. auto.
  - intros done name w' (Ha & Hk & Hu & Hd).
    unfold createBuffer, allocate, update_buffer, gl_bindBuffer.
    wp_auto; try exact I.
    cbn. rewrite obj_keys_update, Ha. auto.
Qed.

Lemma createUniforms_registers Kb (data : obj (UniformConfig num)) (w : World num) :
  accessors (buffers (this w)) = Kb ->
  obj_keys (data_buffers (this w)) = Kb ->
  wp (createUniforms data) any_call (fun _ => registered Kb (obj_keys data)) anything w.
Proof.
  intros Ha Hk. unfold createUniforms, registered. wp_step. wp_step. wp_step. wp_step.
  apply (wp_forEach_prefix _ _ _
    (fun done w' => accessors (buffers (this w')) = Kb
                    /\ obj_keys (data_buffers (this w')) = Kb
                    /\ accessors (uniforms (this w')) = done
                    /\ obj_keys (data_uniforms (this w')) = obj_keys data)).
  - cbn. auto.
  - intros done name w' (Hb & Hkb & Hu & Hku).
    unfold allocate, update_uniform. wp_auto; try exact I.
    all: cbn; rewrite obj_keys_update, Hu; auto.
Qed.

Lemma createProgram_any vertex fragment (w : World num) :
  wp (createProgram vertex fragment) any_call
     (fun _ w' => buffers (this w') = buffers (this w)
                  /\ data_buffers (this w') = data_buffers (this w)
                  /\ uniforms (this w') = uniforms (this w)
                  /\ data_uniforms (this w') = data_uniforms (this w))
     anything w.
Proof.
  unfold createProgram, createShader, allocate. wp_auto; try exact I.
  all: cbn; auto.
Qed.

Lemma obj_keys_set_incl {V} (k k' : string) (v : V) (o : obj V) :
  In k (obj_keys o) -> In k (obj_keys (obj_set k' v o)).
Proof.
  unfold obj_keys. induction o as [|[k0 v0] rest IH]; simpl; [tauto|].
  destruct (String.eqb k' k0); simpl; tauto.
Qed.

Lemma obj_keys_spread {V} (k : string) (base over : obj V) :
  In k (obj_keys base) -> In k (obj_keys (obj_spread base over)).
Proof.
  unfold obj_spread. revert base.
  induction over as [|[k' v'] rest IH]; intros base H; simpl; [exact H|].
  apply IH, obj_keys_set_incl, H.
Qed.

Lemma mem_In (k : string) (l : list string) : In k l -> mem k l = true.
Proof.
  intros H. unfold mem. apply existsb_exists. exists k. split; [exact H|].
  apply String.eqb_refl.
Qed.

(** An instance that the constructor returns has an accessor and a config
    record for every key of the merged buffers and uniforms. *)
Lemma constructor_registers (options : ShaderProgramOptions num) (w : World num) :
  wp (constructor options) any_call
     (fun _ => registered
        (obj_keys (obj_spread default_buffers (or_default (opt_buffers options) [])))
        (obj_keys (obj_spread default_uniforms (or_default (opt_uniforms options) []))))
     anything w.
Proof.
  unfold constructor. wp_auto; try exact I.
  eapply wp_mono; [apply createProgram_any | auto ..]. cbn beta.
  intros _ w1 (B1 & D1 & U1 & DU1). wp_step.
  eapply wp_mono; [apply createBuffers_registers | auto ..]. cbn beta.
  intros _ w2 (B2 & D2 & U2 & DU2). wp_step.
  eapply wp_mono; [apply (createUniforms_registers _ _ _ B2 D2) | auto ..]. cbn beta.
  intros _ w3 R3. wp_step.
  eapply wp_mono; [apply updateBuffers_registered, R3 | auto ..]. cbn beta.
  intros _ w4 R4. wp_step.
  eapply wp_mono; [apply updateUniforms_registered, R4 | auto ..]. cbn beta.
  intros _ w5 R5. wp_step.
  eapply wp_mono; [apply createTexture_registered, R5 | auto ..]. cbn beta.
  intros _ w6 R6. unfold addEventListener_, performance_now_.
  wp_auto; try exact I.
  all: eapply wp_mono; [apply resize_registered | auto ..];
       [ unfold registered in *; cbn; exact R6 | ]; cbn beta; intros _ w7 R7.
  all: wp_auto.
  all: apply update_registered; unfold registered in *; cbn; exact R7.
Qed.

(** In particular it has them for [position]. *)
Lemma constructor_registers_position
  (options : ShaderProgramOptions num) (w : World num) :
  let r := constructor options w in
  result r = inr tt ->
  mem "position" (accessors (buffers (this (world r)))) = true
  /\ exists b, obj_get "position" (data_buffers (this (world r))) = Some b.
Proof.
  intros r Hr. destruct (constructor_registers options w) as [_ H].
  fold r in H. rewrite Hr in H. destruct H as (Ha & Hk & _).
  assert (Hin : In "position"
    (obj_keys (obj_spread default_buffers (or_default (opt_buffers options) [])))).
  { apply obj_keys_spread. left. reflexivity. }
  split.
  - rewrite Ha. apply mem_In, Hin.
  - apply obj_get_keys. rewrite Hk. exact Hin.
Qed.
End Construction.

(** ** Runs on the sample pages *)

Section Runs.

Example ready_has_one_frame_pending :
  animationFrameId (this ready) = Some 1 /\ frames (page ready) = [1].
Proof. split; vm_compute; reflexivity. Qed.

(** On the sample page, in doubles. *)
Example position_write_count_double :
  map (fun data => count (this (world (buffers_set "position" data ready))))
      [ []; [1; 2; 3]; [1; 2; 3; 4; 5; 6]; repeat 0 3000 ]%float
  = [0; 1; 2; 1000]%float.
Proof. vm_compute. reflexivity. Qed.

(** C1, as stated, fails: [time] is registered on the sample page, its
    location is [null] because the default shaders never use [u_time], and
    a write to it uploads nothing. *)
Lemma time_write_uploads_nothing :
  mem "time" (accessors (uniforms (this ready))) = true
  /\ List.length (filter is_upload (calls (uniforms_set "time" (VNum 5%float) ready))) <> 1.
Proof. split; [vm_compute; reflexivity | vm_compute; discriminate]. Qed.

Lemma uniform_write_read_upload_witness :
  let r := uniforms_set "hasTexture" (VNum 1%float) ready in
  result r = inr tt
  /\ uniforms_get "hasTexture" (world r) = Some (VNum 1%float)
  /\ calls r = [upload t_int 6 (VNum 1%float)]
  /\ entry_point (upload t_int 6 (VNum 1%float)) = Some t_int.
Proof.
  apply (uniform_write_read_upload ready "hasTexture"
           {| u_type := t_int; u_value := VNum 0%float; u_location := Some 6 |}
           6 (VNum 1%float));
    vm_compute; reflexivity.
Defined.

Lemma uniform_write_without_location_witness :
  let r := uniforms_set "time" (VNum 5%float) ready in
  result r = inr tt
  /\ uniforms_get "time" (world r) = Some (VNum 5%float)
  /\ calls r = [].
Proof.
  eapply (uniform_write_without_location ready "time" _ (VNum 5%float));
    vm_compute; reflexivity.
Defined.

Lemma position_write_sets_count_witness :
  let r := buffers_set "position" [1; 2; 3]%R buffers_created in
  result r = inr tt
  /\ (forall N, List.length [1; 2; 3]%R = 3 * N -> count (this (world r)) = IZR (Z.of_nat N))
  /\ ([1; 2; 3]%R = [] -> count (this (world r)) = 0%R)
  /\ (forall w' : World R, count (this w') = 0%R ->
        Forall (fun c => is_draw c = false) (calls (_update w'))).
Proof.
  apply (position_write_sets_count buffers_created [1; 2; 3]%R
           {| b_size := 3%R; b_data := []; b_buffer := Some 1 |});
    reflexivity.
Defined.

(** C5, as stated, fails: after a write through the accessor [position]
    its buffer is still bound. *)
Lemma position_write_leaves_buffer_bound :
  ARRAY_BUFFER_BINDING
    (page (world (buffers_set "position" [1; 2; 3]%float ready))) <> None.
Proof. vm_compute. discriminate. Qed.

Lemma buffer_binding_after_writes_witness :
  result (buffers_set "position" [1; 2; 3]%float ready) = inr tt
  /\ ARRAY_BUFFER_BINDING
       (page (world (buffers_set "position" [1; 2; 3]%float ready))) = Some 4.
Proof.
  apply (proj2 (proj2 (buffer_binding_after_writes ready)) "position"
           {| b_size := 3%float; b_data := []; b_buffer := Some 4 |}
           [1; 2; 3]%float);
    vm_compute; reflexivity.
Defined.

(** C6, as stated, fails: on the sample page, whose camera has aspect 4/3
    after the first resize, [setProjection(2)] leaves another camera. *)
Lemma setProjection_overwrites_aspect :
  camera (this (world (setProjection 2%float ready))) <> camera (this ready).
Proof.
  intros H. apply (f_equal (fun c => PrimFloat.eqb (c_aspect c) 2%float)) in H.
  vm_compute in H. discriminate H.
Qed.

(** C9: [normal] was never registered on the sample page, and
    [setBuffer("normal", [1, 2, 3])] throws a [TypeError] there. *)
Theorem setBuffer_unregistered_name_throws :
  let r := setBuffer (Some "normal") (Some [1; 2; 3]%float) ready in
  obj_get "normal" (data_buffers (this ready)) = None
  /\ result r = inl (TypeError "Cannot read properties of undefined (reading 'buffer')").
Proof. split; vm_compute; reflexivity. Qed.

(** C3: on the sample page a second [destroy] returns normally and repeats
    the [deleteBuffer], [deleteTexture] and [deleteProgram] calls of the
    first, for the same handles; it repeats neither the frame cancellation,
    nor the listener removal, nor the removal of the canvas. *)
Theorem second_destroy_releases_again :
  let r1 := destroy ready in
  let r2 := destroy (world r1) in
  calls r1 = [ cancelAnimationFrame 1; window_removeEventListener ev_resize;
               gl_deleteBuffer 4; gl_deleteBuffer 5; gl_deleteTexture 8;
               gl_deleteProgram 3; parentNode_removeChild ]
  /\ result r2 = inr tt
  /\ calls r2 = [ gl_deleteBuffer 4; gl_deleteBuffer 5; gl_deleteTexture 8;
                  gl_deleteProgram 3 ].
Proof. repeat split; vm_compute; reflexivity. Qed.

(** C4: when the vertex shader compiles and the fragment shader does not,
    the constructor throws after creating shaders 1 and 2 and deleting
    shader 2 only; when both compile and the program does not link, it
    throws after deleting the program and neither shader. *)
Theorem failed_build_leaks_shaders :
  let fragment := constructor no_options (page0 driver_fragment_fails) in
  let link := constructor no_options (page0 driver_link_fails) in
  (result fragment = inl (Error "Shader compilation failed: ERROR: 0:1: syntax error")
   /\ shaders_created (calls fragment) = [1; 2]
   /\ filter is_release (calls fragment) = [gl_deleteShader 2])
  /\ (result link = inl (Error "Program linking failed: varying v_color mismatch")
      /\ shaders_created (calls link) = [1; 2]
      /\ filter is_release (calls link) = [gl_deleteProgram 3]).
Proof. repeat split; vm_compute; reflexivity. Qed.

(** C7: with an [onUpdate] that calls [this.destroy()], the teardown runs
    inside the first frame of the constructor, and [_update] then requests
    frame 1; frame 1 runs, tears down again, and requests frame 2; and so on
    after frame 2. *)
Theorem destroy_in_callback_keeps_looping :
  let built := constructor destroy_on_update (page0 driver) in
  let frame1 := dispatch (on_frame 1) (world built) in
  let frame2 := dispatch (on_frame 2) (world frame1) in
  result built = inr tt
  /\ filter is_release (calls built)
     = [ window_removeEventListener ev_resize; gl_deleteBuffer 4; gl_deleteBuffer 5;
         gl_deleteTexture 8; gl_deleteProgram 3; parentNode_removeChild ]
  /\ frames (page (world built)) = [1]
  /\ calls frame1 = [ cancelAnimationFrame 1; gl_deleteBuffer 4; gl_deleteBuffer 5;
                      gl_deleteTexture 8; gl_deleteProgram 3; requestAnimationFrame 2 ]
  /\ frames (page (world frame1)) = [2]
  /\ calls frame2 = [ cancelAnimationFrame 2; gl_deleteBuffer 4; gl_deleteBuffer 5;
                      gl_deleteTexture 8; gl_deleteProgram 3; requestAnimationFrame 3 ]
  /\ frames (page (world frame2)) = [3].
Proof. repeat split; vm_compute; reflexivity. Qed.
End Runs.

(** ** Rules for the calls in order *)

Section TraceLogic.
Context {num : Type}.

Lemma wpt_ret {A} (a : A) (Q : list (call num) -> A -> World num -> Prop) E w :
  Q [] a w -> wpt (ret a) Q E w.
Proof. exact (fun H => H). Qed.

Lemma wpt_get {A} (f : World num -> A) (Q : list (call num) -> A -> World num -> Prop) E w :
  Q [] (f w) w -> wpt (get f) Q E w.
Proof. exact (fun H => H). Qed.

Lemma wpt_modify (f : World num -> World num) (Q : list (call num) -> unit -> World num -> Prop) E w :
  Q [] tt (f w) -> wpt (modify f) Q E w.
Proof. exact (fun H => H). Qed.

Lemma wpt_emit (c : call num) (Q : list (call num) -> unit -> World num -> Prop) E w :
  Q [c] tt w -> wpt (emit c) Q E w.
Proof. exact (fun H => H). Qed.

Lemma wpt_throw {A} (e : exn) (Q : list (call num) -> A -> World num -> Prop)
  (E : list (call num) -> exn -> World num -> Prop) w :
  E [] e w -> wpt (throw e) Q E w.
Proof. exact (fun H => H). Qed.

Lemma wpt_bind {A B} (m : M num A) (k : A -> M num B) Q E w :
  wpt m (fun cs a w' => wpt (k a) (fun cs' => Q (cs ++ cs')) (fun cs' => E (cs ++ cs')) w')
        (fun cs e w' => E cs e w') w ->
  wpt (bind m k) Q E w.
Proof.
  unfold wpt, bind. destruct (result (m w)) as [e|a]; cbn; [auto|].
  destruct (result (k a (world (m w)))); auto.
Qed.

Lemma wpt_mono {A} (m : M num A) (Q Q' : list (call num) -> A -> World num -> Prop)
  (E E' : list (call num) -> exn -> World num -> Prop) w :
  wpt m Q E w ->
  (forall cs a w', Q cs a w' -> Q' cs a w') ->
  (forall cs e w', E cs e w' -> E' cs e w') ->
  wpt m Q' E' w.
Proof. unfold wpt. destruct (result (m w)); auto. Qed.

(** What is known without the order of the calls is known with it. *)
Lemma wpt_of_wp {A} (m : M num A) C (Q : A -> World num -> Prop) E w :
  wp m C Q E w ->
  wpt m (fun cs a w' => Forall C cs /\ Q a w') (fun cs e w' => Forall C cs /\ E e w') w.
Proof. unfold wp, wpt. intros [Hc H]. destruct (result (m w)); auto. Qed.

Lemma wpt_run {A} (m : M num A) Q E w :
  wpt m Q E w ->
  match result (m w) with
  | inr a => Q (calls (m w)) a (world (m w))
  | inl e => E (calls (m w)) e (world (m w))
  end.
Proof. exact (fun H => H). Qed.

Lemma wpt_of_run {A} (m : M num A) (Q : list (call num) -> A -> World num -> Prop)
  E w cs w' a :
  m w = {| calls := cs; world := w'; result := inr a |} -> Q cs a w' -> wpt m Q E w.
Proof. unfold wpt. intros ->. exact (fun H => H). Qed.

Lemma wpt_returns {A} (m : M num A) (Q : list (call num) -> A -> World num -> Prop) w :
  wpt m Q (fun _ _ _ => False) w ->
  exists a, result (m w) = inr a /\ Q (calls (m w)) a (world (m w)).
Proof. unfold wpt. destruct (result (m w)) as [e|a]; [intros []|]. eauto. Qed.

End TraceLogic.

Ltac wpt_step :=
  lazymatch goal with
  | |- wpt (bind _ _) _ _ _ => apply wpt_bind
  | |- wpt (get _) _ _ _ => apply wpt_get
  | |- wpt (modify _) _ _ _ => apply wpt_modify
  | |- wpt (ret _) _ _ _ => apply wpt_ret
  | |- wpt (throw _) _ _ _ => apply wpt_throw
  | |- wpt (emit _) _ _ _ => apply wpt_emit
  end;
  cbn beta.

Ltac wpt_case :=
  match goal with
  | |- wpt (if ?b then _ else _) _ _ _ => destruct b eqn:?
  | |- wpt (match ?x with _ => _ end) _ _ _ => destruct x eqn:?
  end.

Ltac wpt_auto := repeat (first [ wpt_step | wpt_case ]); cbn beta.

(** ** What a frame draws *)

Section Drawing.
Context {num : Type} {NUM : JSNumber num}.

Lemma filter_no_draw (cs : list (call num)) :
  Forall no_draw cs -> filter is_draw cs = [].
Proof.
  induction 1 as [|c cs Hc _ IH]; cbn; [reflexivity|].
  unfold no_draw in Hc. rewrite Hc. exact IH.
Qed.

(** X1: a frame that starts with a count above 0 clears once and then
    draws once, [count] points; a frame that starts with any other count
    neither clears nor draws.  Whatever the callback does, the frame makes
    no other clear or draw call. *)
Theorem frame_draws_once (w : World num) :
  filter is_draw (calls (_update w))
  = if (count (this w) >? of_Z 0)%js
    then [gl_clear_COLOR_BUFFER_BIT; gl_drawArrays_POINTS (count (this w))]
    else [].
Proof.
  set (drawn := if (count (this w) >? of_Z 0)%js
                then [gl_clear_COLOR_BUFFER_BIT; gl_drawArrays_POINTS (count (this w))]
                else []).
  assert (H : wpt _update (fun cs _ _ => filter is_draw cs = drawn)
                          (fun cs _ _ => filter is_draw cs = drawn) w).
  { unfold _update, performance_now_, requestAnimationFrame_.
    wpt_auto.
    eapply wpt_mono; [ apply wpt_of_wp, uniforms_set_keeps_count | | ];
      cbn beta; [| intros cs e w' [_ []] ].
    intros cs1 _ w1 [D1 C1]. cbn in C1.
    wpt_step. wpt_step. rewrite C1. unfold drawn.
    destruct (count (this w) >? of_Z 0)%js; wpt_auto.
    all: eapply wpt_mono; [ apply wpt_of_wp, run_callback_no_draw | | ]; cbn beta.
    all: try (intros cs2 ? w2 [D2 _]; wpt_auto).
    all: try (intros cs2 ? w2 [D2 _]).
    all: rewrite !filter_app, (filter_no_draw _ D1), (filter_no_draw _ D2); reflexivity. }
  apply wpt_run in H. destruct (result (_update w)); exact H.
Qed.
End Drawing.

(** ** The schedule of frames and listeners *)

Section Schedule.
Context {num : Type} {NUM : JSNumber num}.

Lemma upload_no_create type location (v : value num) : no_create (upload type location v).
Proof. destruct type; reflexivity. Qed.

Lemma uniforms_set_unscheduled name (v : value num) :
  unscheduled (uniforms_set name v).
Proof.
  intros w. unfold uniforms_set, setUniform, update_uniform. wp_auto.
  all: apply upload_no_create.
Qed.

Lemma setBuffer_unscheduled name (data : option (list num)) :
  unscheduled (setBuffer name data).
Proof.
  intros w. unfold setBuffer, gl_bindBuffer. wp_auto; reflexivity.
Qed.

Lemma buffers_set_unscheduled name (data : list num) :
  unscheduled (buffers_set name data).
Proof.
  intros w. unfold buffers_set, setBuffer, update_buffer, gl_bindBuffer.
  wp_auto; reflexivity.
Qed.

Lemma setProjection_unscheduled (a : num) : unscheduled (setProjection a).
Proof. intros w. unfold setProjection. wp_auto. Qed.

Lemma destroy_schedule (w : World num) :
  wp destroy no_create (fun _ w' => sched w' = destroyed (sched w)) never w.
Proof.
  unfold destroy, stop_animation_loop, remove_event_listeners, remove_canvas,
    cancelAnimationFrame_, removeEventListener_.
  wp_auto; try reflexivity.
  all: eapply wp_of_run;
    [ apply clean_up_webgl_run
    | unfold gl_releases; rewrite !Forall_app; repeat split;
      [ apply Forall_forall; intros c Hc; apply in_flat_map in Hc;
        destruct Hc as (b & _ & Hc); unfold delete_buffer in Hc;
        destruct (b_buffer b); [destruct Hc as [<-|[]]; reflexivity | destruct Hc]
      | destruct (texture _); repeat constructor
      | destruct (program _); repeat constructor ]
    | ].
  all: wp_auto; try reflexivity.
  all: unfold sched, destroyed; cbn in *;
       repeat match goal with H : _ = _ |- _ => rewrite H end; reflexivity.
Qed.

(** A property of the schedule that [destroy] keeps is kept by whatever
    user code does with the instance, whether it returns or throws. *)
Section Kept.
Variable J : Schedule -> Prop.
Hypothesis J_destroyed : forall s, J s -> J (destroyed s).

Lemma unscheduled_keeps {A} (m : M num A) : unscheduled m -> keeps_schedule J m.
Proof.
  intros H w Hw. eapply wp_mono; [apply H | auto | |]; cbn beta;
    intros _ w' E; rewrite E; exact Hw.
Qed.

Lemma destroy_keeps : keeps_schedule (num := num) J destroy.
Proof.
  intros w Hw. eapply wp_mono; [apply destroy_schedule | auto | |]; cbn beta.
  - intros _ w' E. rewrite E. apply J_destroyed, Hw.
  - intros _ w' [].
Qed.

Lemma run_api_keeps (a : api num) : keeps_schedule J (run_api a).
Proof.
  destruct a; cbn [run_api].
  - apply destroy_keeps.
  - apply unscheduled_keeps, uniforms_set_unscheduled.
  - apply unscheduled_keeps, buffers_set_unscheduled.
  - apply unscheduled_keeps, setBuffer_unscheduled.
Qed.

Lemma wp_forEach_both {A} (l : list A) (f : A -> M num unit) C (I : World num -> Prop) w :
  I w ->
  (forall x w', I w' -> wp (f x) C (fun _ => I) (fun _ => I) w') ->
  wp (forEach l f) C (fun _ => I) (fun _ => I) w.
Proof. intros Hw Hf. apply wp_forEach; auto. Qed.

Lemma run_callback_keeps (body : list (api num)) : keeps_schedule J (run_callback body).
Proof.
  intros w Hw. unfold run_callback.
  apply (wp_forEach_both _ _ _ (fun w => J (sched w))); [exact Hw|].
  intros a w' Hw'. apply run_api_keeps, Hw'.
Qed.

Lemma mousemove_keeps (x y : num) : keeps_schedule J (mousemove x y).
Proof.
  intros w Hw. unfold mousemove. wp_auto.
  apply (unscheduled_keeps _ (uniforms_set_unscheduled _ _)). exact Hw.
Qed.

Lemma resize_keeps : keeps_schedule (num := num) J resize.
Proof.
  intros w Hw. unfold resize. wp_auto; try reflexivity.
  eapply wp_mono;
    [ apply (unscheduled_keeps _ (uniforms_set_unscheduled _ _)); exact Hw | auto .. ].
  cbn beta. intros _ w1 H1. wp_step.
  eapply wp_mono;
    [ apply (unscheduled_keeps _ (setProjection_unscheduled _)); exact H1 | auto .. ].
  cbn beta. intros m w2 H2. wp_step.
  eapply wp_mono;
    [ apply (unscheduled_keeps _ (uniforms_set_unscheduled _ _)); exact H2 | auto .. ].
  cbn beta. intros _ w3 H3. wp_auto.
  apply run_callback_keeps, H3.
Qed.

(** A frame: what user code kept, then the next request. *)
Lemma update_schedule (w : World num) :
  J (sched w) ->
  wp _update no_create
     (fun _ w' => exists s, J s /\ sched w' = rescheduled s)
     (fun _ w' => J (sched w')) w.
Proof.
  intros Hw. unfold _update, performance_now_, requestAnimationFrame_.
  wp_auto.
  eapply wp_mono;
    [ apply (unscheduled_keeps _ (uniforms_set_unscheduled _ _)); exact Hw | auto .. ].
  cbn beta. intros _ w1 H1. wp_auto; try reflexivity.
  all: eapply wp_mono; [ apply run_callback_keeps, H1 | auto .. ].
  all: cbn beta; intros _ w2 H2; wp_auto; try reflexivity.
  all: exists (sched w2); split; [exact H2 | reflexivity].
Qed.
End Kept.

Lemma filter_all_same (id : nat) (l : list nat) :
  (forall i, In i l -> i = id) ->
  filter (fun i => negb (Nat.eqb i id)) l = [].
Proof.
  induction l as [|i l IH]; cbn; intros H; [reflexivity|].
  rewrite (H i (or_introl eq_refl)), Nat.eqb_refl. cbn.
  apply IH. intros j Hj. apply H. right. exact Hj.
Qed.

Lemma tracked_same (s : Schedule) (id : nat) :
  tracked s -> s_id s = Some id -> forall i, In i (s_frames s) -> i = id.
Proof.
  intros H Hid i Hi. apply H in Hi. rewrite Hid in Hi. injection Hi as ->. reflexivity.
Qed.

Lemma destroyed_tracked (s : Schedule) : tracked s -> idle (destroyed s).
Proof.
  unfold idle, destroyed. cbn. intros H.
  destruct (s_id s) as [id|] eqn:E.
  - apply filter_all_same, (tracked_same s id H E).
  - destruct (s_frames s) as [|i l] eqn:F; [reflexivity|].
    assert (Hi : s_id s = Some i) by (apply H; rewrite F; left; reflexivity).
    rewrite E in Hi. discriminate Hi.
Qed.

Lemma destroyed_idle (s : Schedule) : idle s -> idle (destroyed s).
Proof.
  unfold idle, destroyed. cbn. intros ->. destruct (s_id s); reflexivity.
Qed.

Lemma idle_tracked (s : Schedule) : idle s -> tracked s.
Proof. unfold idle, tracked. intros -> id []. Qed.

Lemma taken_tracked (id : nat) (s : Schedule) :
  tracked s -> In id (s_frames s) -> idle (taken id s).
Proof.
  unfold idle, taken. cbn. intros H Hin.
  apply filter_all_same, (tracked_same s id H (H id Hin)).
Qed.

Lemma rescheduled_idle (s : Schedule) : idle s -> tracked (rescheduled s).
Proof.
  unfold idle, tracked, rescheduled. cbn. intros -> id [<-|[]]. reflexivity.
Qed.

Lemma keeps_idle_requests_nothing {A} (m : M num A) :
  keeps_schedule idle m -> requests_nothing m.
Proof.
  intros H w Hw. eapply wp_mono; [apply H, Hw | | auto ..]. intros; exact I.
Qed.

Lemma createProgram_requests_nothing vertex fragment :
  requests_nothing (num := num) (createProgram vertex fragment).
Proof.
  intros w Hw. unfold createProgram, createShader, allocate. wp_auto; exact I.
Qed.

Lemma createBuffers_requests_nothing (data : obj (BufferConfig num)) :
  requests_nothing (num := num) (createBuffers data).
Proof.
  intros w Hw. unfold createBuffers. wp_auto.
  apply (wp_forEach_both _ _ _ (fun w => idle (sched w))); [exact Hw|].
  intros name w' Hw'. unfold createBuffer, allocate, update_buffer, gl_bindBuffer.
  wp_auto; exact I.
Qed.

Lemma createUniforms_requests_nothing (data : obj (UniformConfig num)) :
  requests_nothing (num := num) (createUniforms data).
Proof.
  intros w Hw. unfold createUniforms. wp_auto.
  apply (wp_forEach_both _ _ _ (fun w => idle (sched w))); [exact Hw|].
  intros name w' Hw'. unfold allocate, update_uniform. wp_auto; exact I.
Qed.

Lemma updateBuffers_requests_nothing : requests_nothing (num := num) updateBuffers.
Proof.
  intros w Hw. unfold updateBuffers. wp_auto.
  eapply wp_mono.
  - apply (wp_forEach_both _ _ any_call (fun w => idle (sched w))); [exact Hw|].
    intros name w' Hw'. wp_auto.
    apply keeps_idle_requests_nothing;
      [ apply unscheduled_keeps, buffers_set_unscheduled | exact Hw' ].
  - auto.
  - cbn beta. intros _ w' Hw'.
    apply keeps_idle_requests_nothing;
      [ apply unscheduled_keeps, setBuffer_unscheduled | exact Hw' ].
  - auto.
Qed.

Lemma updateUniforms_requests_nothing : requests_nothing (num := num) updateUniforms.
Proof.
  intros w Hw. unfold updateUniforms. wp_auto.
  apply (wp_forEach_both _ _ any_call (fun w => idle (sched w))); [exact Hw|].
  intros name w' Hw'. wp_auto.
  apply keeps_idle_requests_nothing;
    [ apply unscheduled_keeps, uniforms_set_unscheduled | exact Hw' ].
Qed.

Lemma createTexture_requests_nothing src : requests_nothing (num := num) (createTexture src).
Proof.
  intros w Hw. unfold createTexture, allocate, loadTexture. wp_auto; try exact I.
  eapply wp_mono;
    [ apply keeps_idle_requests_nothing;
      [ apply unscheduled_keeps, uniforms_set_unscheduled | exact Hw ]
    | auto .. ].
  cbn beta. intros _ w' Hw'. wp_auto. exact I.
Qed.

(** The constructor requests its one frame at the very end: when it
    returns, the schedule is an idle one with that request added; when it
    throws, nothing is pending. *)
Lemma constructor_schedule (options : ShaderProgramOptions num) (w : World num) :
  idle (sched w) ->
  wp (constructor options) any_call
     (fun _ w' => exists s, idle s /\ sched w' = rescheduled s)
     (fun _ w' => idle (sched w')) w.
Proof.
  intros Hw. unfold constructor. wp_auto; try exact I.
  pose (next := fun {A} (m : M num A) (Q : A -> World num -> Prop) w0
      (Hm : requests_nothing m) (H0 : idle (sched w0))
      (HQ : forall a w', idle (sched w') -> Q a w') =>
    wp_mono m any_call any_call _ Q _ (fun _ w' => idle (sched w')) w0
      (Hm w0 H0) (fun c H => H) HQ (fun e w' H => H)).
  apply next; [apply createProgram_requests_nothing | exact Hw |].
  intros _ w1 H1. wp_step.
  apply next; [apply createBuffers_requests_nothing | exact H1 |].
  intros _ w2 H2. wp_step.
  apply next; [apply createUniforms_requests_nothing | exact H2 |].
  intros _ w3 H3. wp_step.
  apply next; [apply updateBuffers_requests_nothing | exact H3 |].
  intros _ w4 H4. wp_step.
  apply next; [apply updateUniforms_requests_nothing | exact H4 |].
  intros _ w5 H5. wp_step.
  apply next; [apply createTexture_requests_nothing | exact H5 |].
  intros _ w6 H6. unfold addEventListener_, performance_now_. wp_auto; try exact I.
  all: apply next;
    [ apply keeps_idle_requests_nothing, resize_keeps, destroyed_idle
    | exact H6 | ]; intros _ w7 H7.
  all: wp_auto.
  all: eapply wp_mono;
    [ apply (update_schedule idle destroyed_idle); exact H7
    | intros; exact I | auto | auto ].
Qed.

Lemma constructor_tracked (options : ShaderProgramOptions num) (w : World num) :
  idle (sched w) ->
  wp (constructor options) any_call
     (fun _ w' => tracked (sched w')) (fun _ w' => tracked (sched w')) w.
Proof.
  intros Hw. eapply wp_mono; [apply constructor_schedule, Hw | auto | |]; cbn beta.
  - intros _ w' (s & Hs & E). rewrite E. apply rescheduled_idle, Hs.
  - intros _ w' H. apply idle_tracked, H.
Qed.
End Schedule.

(** ** Events on the page *)

Section Events.
Context {num : Type} {NUM : JSNumber num}.

Lemma dispatch_frame_pending (id : nat) (w : World num) :
  existsb (Nat.eqb id) (frames (page w)) = true -> In id (frames (page w)).
Proof.
  intros H. apply existsb_exists in H. destruct H as (i & Hi & E).
  apply Nat.eqb_eq in E. subst i. exact Hi.
Qed.

Lemma dispatch_tracked (e : event num) (w : World num) :
  tracked (sched w) ->
  wp (dispatch e) no_create (fun _ w' => tracked (sched w'))
                            (fun _ w' => tracked (sched w')) w.
Proof.
  intros Hw. destruct e as [id|ow oh|x y|a]; cbn [dispatch].
  - wp_step. wp_step. wp_case; [|wp_step; exact Hw].
    wp_step. wp_step.
    assert (Hi : idle (sched (on_page (fun p =>
              set_frames (filter (fun i => negb (Nat.eqb i id)) (frames p)) p) w))).
    { apply (taken_tracked id (sched w) Hw), dispatch_frame_pending.
      assumption. }
    eapply wp_mono; [ apply (update_schedule idle destroyed_idle), Hi | auto | | ];
      cbn beta.
    + intros _ w' (s & Hs & E). rewrite E. apply rescheduled_idle, Hs.
    + intros _ w' H. apply idle_tracked, H.
  - wp_auto; try exact Hw.
    apply (resize_keeps tracked); [| exact Hw].
    intros s Hs. apply idle_tracked, destroyed_tracked, Hs.
  - wp_auto; try exact Hw.
    apply (mousemove_keeps tracked), Hw.
  - apply (run_api_keeps tracked); [| exact Hw].
    intros s Hs. apply idle_tracked, destroyed_tracked, Hs.
Qed.

Lemma dispatch_idle (e : event num) (w : World num) :
  idle (sched w) ->
  wp (dispatch e) no_create (fun _ w' => idle (sched w')) (fun _ w' => idle (sched w')) w.
Proof.
  intros Hw. destruct e as [id|ow oh|x y|a]; cbn [dispatch].
  - wp_step. wp_step. unfold idle in Hw. cbn in Hw. rewrite Hw. cbn.
    wp_step. exact Hw.
  - wp_auto; try exact Hw. apply (resize_keeps idle destroyed_idle), Hw.
  - wp_auto; try exact Hw. apply (mousemove_keeps idle), Hw.
  - apply (run_api_keeps idle destroyed_idle), Hw.
Qed.

Lemma wp_world {A} (m : M num A) C (P : World num -> Prop) (w : World num) :
  wp m C (fun _ => P) (fun _ => P) w -> P (world (m w)).
Proof. intros [_ H]. destruct (result (m w)); exact H. Qed.

Lemma after_keeps (P : World num -> Prop) (es : list (event num)) (w : World num) :
  (forall e w, P w -> P (world (dispatch e w))) -> P w -> P (after es w).
Proof.
  intros H. unfold after. revert w.
  induction es as [|e es IH]; intros w Hw; cbn; [exact Hw|].
  apply IH, H, Hw.
Qed.

Lemma constructed_tracked
  (options : ShaderProgramOptions num) (es : list (event num)) (w : World num) :
  frames (page w) = [] ->
  tracked (sched (after es (world (constructor options w)))).
Proof.
  intros Hw. apply (after_keeps (fun w => tracked (sched w))).
  - intros e w0 H0. apply (wp_world _ _ _ _ (dispatch_tracked e w0 H0)).
  - apply (wp_world _ _ _ _ (constructor_tracked options w Hw)).
Qed.

(** X2: on a page where no frame is pending, build an instance and let any
    events follow (frames, resizes, moves of the pointer, and calls of user
    code to [destroy], the accessors and [setBuffer]): every pending frame
    request is then the one on record in [animationFrameId], whether the
    constructor and the handlers returned or threw. *)
Theorem pending_frames_are_on_record
  (options : ShaderProgramOptions num) (es : list (event num)) (w : World num) :
  frames (page w) = [] ->
  let w' := after es (world (constructor options w)) in
  forall id, In id (frames (page w')) -> animationFrameId (this w') = Some id.
Proof.
  intros Hw w'. change (tracked (sched w')). subst w'.
  apply (after_keeps (fun w => tracked (sched w))).
  - intros e w0 H0. apply (wp_world _ _ _ _ (dispatch_tracked e w0 H0)).
  - apply (wp_world _ _ _ _ (constructor_tracked options w Hw)).
Qed.

(** X3: a [destroy] made between events stops the frame loop for good: on
    an instance built on a page where no frame was pending, after any events
    (as in X2), a [destroy] and any further events, no frame request is
    pending, and a frame that the browser would still run makes no call. *)
Theorem destroy_between_events_stops_the_loop
  (options : ShaderProgramOptions num) (before later : list (event num))
  (w : World num) :
  frames (page w) = [] ->
  let w' := after later (world (destroy (after before (world (constructor options w))))) in
  frames (page w') = []
  /\ forall id, dispatch (on_frame id) w' = {| calls := []; world := w'; result := inr tt |}.
Proof.
  intros Hw w'.
  assert (H : idle (sched w')).
  { subst w'. apply (after_keeps (fun w => idle (sched w))).
    - intros e w0 H0. apply (wp_world _ _ _ _ (dispatch_idle e w0 H0)).
    - destruct (wp_returns _ _ _ _ (destroy_schedule
                  (after before (world (constructor options w))))) as ([] & _ & E & _).
      rewrite E. apply destroyed_tracked, constructed_tracked, Hw. }
  split; [exact H|]. intros id. apply no_pending_no_frame, H.
Qed.

(** X4: no event (a frame, a resize, a move of the pointer, a call of user
    code to [destroy], an accessor or [setBuffer]) creates a shader, program,
    buffer or texture or takes an object number: the objects of the context
    are those the constructor made. *)
Theorem events_create_no_object (e : event num) (w : World num) :
  Forall (fun c => is_create c = false) (calls (dispatch e w))
  /\ next_handle (page (world (dispatch e w))) = next_handle (page w).
Proof.
  set (J := fun s => s_next_handle s = next_handle (page w)).
  assert (JD : forall s, J s -> J (destroyed s)) by (intros s H; exact H).
  assert (H : wp (dispatch e) no_create (fun _ w' => J (sched w'))
                 (fun _ w' => J (sched w')) w).
  { destruct e as [id|ow oh|x y|a]; cbn [dispatch].
    - wp_step. wp_step. wp_case; [|wp_step; reflexivity].
      wp_step. wp_step.
      eapply wp_mono; [ apply (update_schedule J JD); reflexivity | auto | | ];
        cbn beta.
      + intros _ w' (s & Hs & E). rewrite E. exact Hs.
      + auto.
    - wp_auto; try reflexivity. apply (resize_keeps J JD). reflexivity.
    - wp_auto; try reflexivity. apply (mousemove_keeps J). reflexivity.
    - apply (run_api_keeps J JD). reflexivity. }
  split; [exact (proj1 H)|]. apply (wp_world _ _ _ _ H).
Qed.
End Events.

(** ** The layout that [resize] takes *)

Section Layout.
Context {num : Type} {NUM : JSNumber num}.

Lemma uniforms_set_dims name (v : value num) (w : World num) :
  wp (uniforms_set name v) any_call (fun _ w' => dims w' = dims w) never w.
Proof. unfold uniforms_set, setUniform, update_uniform. wp_auto; exact I. Qed.

Lemma uniforms_set_keeps_dims name (v : value num) : keeps_dims (uniforms_set name v).
Proof.
  intros w. eapply wp_mono; [apply uniforms_set_dims | auto ..]. intros ? ? [].
Qed.

Lemma uniforms_set_then name (v : value num) (Q : unit -> World num -> Prop)
  (E : exn -> World num -> Prop) w :
  (forall w', dims w' = dims w -> Q tt w') ->
  wp (uniforms_set name v) any_call Q E w.
Proof.
  intros HQ. eapply wp_mono; [apply uniforms_set_dims | auto ..].
  - intros [] w'. apply HQ.
  - intros ? ? [].
Qed.

Lemma run_api_keeps_dims (a : api num) : keeps_dims (run_api a).
Proof.
  intros w. destruct a; cbn [run_api].
  - unfold destroy, stop_animation_loop, remove_event_listeners, remove_canvas,
      cancelAnimationFrame_, removeEventListener_.
    wp_auto; try exact I.
    all: eapply wp_of_run;
      [ apply clean_up_webgl_run | apply Forall_forall; intros; exact I | ].
    all: wp_auto; exact I.
  - apply uniforms_set_keeps_dims.
  - unfold buffers_set, setBuffer, update_buffer, gl_bindBuffer. wp_auto; exact I.
  - unfold setBuffer, gl_bindBuffer. wp_auto; exact I.
Qed.

Lemma run_callback_keeps_dims (body : list (api num)) : keeps_dims (run_callback body).
Proof.
  intros w. unfold run_callback.
  apply (wp_forEach _ _ _ (fun w' => dims w' = dims w)); [reflexivity|].
  intros a w' _ E. rewrite <- E. apply run_api_keeps_dims.
Qed.

Lemma keeps_dims_then {A} (m : M num A) (Q : A -> World num -> Prop)
  (E : exn -> World num -> Prop) w :
  keeps_dims m ->
  (forall a w', dims w' = dims w -> Q a w') ->
  (forall e w', dims w' = dims w -> E e w') ->
  wp m any_call Q E w.
Proof. intros Hm HQ HE. eapply wp_mono; [apply Hm | auto ..]. Qed.

Lemma wpt_any {A} (m : M num A) (Q : list (call num) -> A -> World num -> Prop)
  (E : list (call num) -> exn -> World num -> Prop) w :
  (forall cs a w', Q cs a w') -> (forall cs e w', E cs e w') -> wpt m Q E w.
Proof. unfold wpt. intros HQ HE. destruct (result (m w)); auto. Qed.

Lemma resize_calls (w : World num) :
  let W := offsetWidth (page w) in
  let H := offsetHeight (page w) in
  let dpi := devicePixelRatio (page w) in
  exists rest,
    calls (resize w)
    = [ canvas_set_size (W * dpi)%js (H * dpi)%js W H;
        gl_viewport (W * dpi)%js (H * dpi)%js; gl_clearColor ] ++ rest.
Proof.
  cbn zeta.
  set (P := fun cs : list (call num) => exists rest, cs =
    [ canvas_set_size (offsetWidth (page w) * devicePixelRatio (page w))%js
        (offsetHeight (page w) * devicePixelRatio (page w))%js
        (offsetWidth (page w)) (offsetHeight (page w));
      gl_viewport (offsetWidth (page w) * devicePixelRatio (page w))%js
        (offsetHeight (page w) * devicePixelRatio (page w))%js;
      gl_clearColor ] ++ rest).
  assert (G : wpt resize (fun cs _ _ => P cs) (fun cs _ _ => P cs) w).
  { unfold resize. do 9 (cbn zeta; wpt_step; wpt_step).
    apply wpt_any; intros cs ? ?; exists cs; reflexivity. }
  apply wpt_run in G. destruct (result (resize w)); exact G.
Qed.

(** X5: [resize] takes the layout of the holder: the canvas gets the
    layout box times the device pixel ratio as its size and the box itself
    as its style, the viewport gets the same size, and the instance keeps
    width, height and their quotient; in perspective mode the camera's
    aspect becomes that quotient.  This holds whatever the [onResize]
    callback does, also when it throws. *)
Theorem resize_takes_the_layout (w : World num) :
  let r := resize w in
  let W := offsetWidth (page w) in
  let H := offsetHeight (page w) in
  let dpi := devicePixelRatio (page w) in
  (exists rest,
     calls r = [ canvas_set_size (W * dpi)%js (H * dpi)%js W H;
                 gl_viewport (W * dpi)%js (H * dpi)%js; gl_clearColor ] ++ rest)
  /\ width (this (world r)) = W
  /\ height (this (world r)) = H
  /\ aspect (this (world r)) = (W / H)%js
  /\ c_aspect (camera (this (world r)))
     = if perspective (camera (this w)) then (W / H)%js
       else c_aspect (camera (this w)).
Proof.
  cbn zeta. split; [apply resize_calls|].
  set (W := offsetWidth (page w)). set (H := offsetHeight (page w)).
  set (D := (W, H, (W / H)%js,
             if perspective (camera (this w))
             then set_c_aspect (W / H)%js (camera (this w)) else camera (this w))).
  assert (G : wp resize any_call (fun _ w' => dims w' = D) (fun _ w' => dims w' = D) w).
  { unfold resize. wp_auto; try exact I.
    apply uniforms_set_then; intros w1 E1.
    unfold setProjection. wp_auto.
    all: apply uniforms_set_then; intros w2 E2.
    all: wp_auto; apply keeps_dims_then; [apply run_callback_keeps_dims | |];
      intros ? w3 E3; cbn beta; rewrite E3.
    all: rewrite E2; unfold dims in *; cbn in *;
      assert (Ec : camera (this w1) = camera (this w)) by congruence;
      rewrite Ec in *; injection E1 as -> -> ->; unfold D; cbn;
      repeat match goal with
             | H : perspective _ = _ |- _ => rewrite H
             end; reflexivity. }
  destruct G as [_ G].
  assert (G' : dims (world (resize w)) = D) by (destruct (result (resize w)); exact G).
  split; [exact (f_equal (fun d => fst (fst (fst d))) G')|].
  split; [exact (f_equal (fun d => snd (fst (fst d))) G')|].
  split; [exact (f_equal (fun d => snd (fst d)) G')|].
  transitivity (c_aspect (snd D)); [exact (f_equal (fun d => c_aspect (snd d)) G')|].
  unfold D; cbn. destruct (perspective (camera (this w))); reflexivity.
Qed.


End Layout.

(** ** Writes as single steps *)

Section MoreObjects.
Context {V : Type}.

Lemma obj_get_update_other (k k' : string) (f : V -> V) (o : obj V) :
  String.eqb k k' = false -> obj_get k (obj_update k' f o) = obj_get k o.
Proof.
  intros N. induction o as [|[k0 v0] rest IH]; cbn; [reflexivity|].
  destruct (String.eqb k' k0) eqn:E; cbn.
  - apply String.eqb_eq in E. subst k0. now rewrite N.
  - now rewrite IH.
Qed.


Lemma obj_update_id (k : string) (f : V -> V) (o : obj V) :
  (forall v, obj_get k o = Some v -> f v = v) -> obj_update k f o = o.
Proof.
  induction o as [|[k0 v0] rest IH]; cbn; [reflexivity|].
  destruct (String.eqb k k0); intros Hf.
  - now rewrite Hf.
  - now rewrite IH.
Qed.

Lemma obj_update_idem (k : string) (f : V -> V) (o : obj V) :
  (forall v, f (f v) = f v) -> obj_update k f (obj_update k f o) = obj_update k f o.
Proof.
  intros Hf. induction o as [|[k0 v0] rest IH]; cbn; [reflexivity|].
  destruct (String.eqb k k0) eqn:E; cbn; rewrite E.
  - now rewrite Hf.
  - now rewrite IH.
Qed.
End MoreObjects.

Section Writes.
Context {num : Type} {NUM : JSNumber num}.

(** A write through the accessor of a registered uniform, as one step. *)
Lemma uniforms_set_run name (v : value num) (u : UniformConfig num) (w : World num) :
  mem name (accessors (uniforms (this w))) = true ->
  obj_get name (data_uniforms (this w)) = Some u ->
  uniforms_set name v w
  = {| calls := uploaded u v;
       world := on_this (fun t => set_data_uniforms
                  (obj_update name (set_u_value v) (data_uniforms t)) t) w;
       result := inr tt |}.
Proof.
  intros Hacc Hget.
  unfold uniforms_set, setUniform, update_uniform, uploaded, bind, get, modify, emit.
  cbn. rewrite Hacc. cbn. rewrite Hget. cbn. rewrite obj_get_update_same, Hget. cbn.
  destruct (u_location u); cbn; [|reflexivity].
  unfold on_this. cbn. rewrite obj_update_idem by reflexivity. reflexivity.
Qed.

(** A write through the accessor of a registered buffer, as one step. *)
Lemma buffers_set_run name (data : list num) (b : BufferConfig num) (w : World num) :
  mem name (accessors (buffers (this w))) = true ->
  obj_get name (data_buffers (this w)) = Some b ->
  buffers_set name data w
  = {| calls := written b data;
       world :=
         let w' := on_page (set_ARRAY_BUFFER_BINDING (b_buffer b))
                     (on_this (fun t => set_data_buffers
                        (obj_update name (set_b_data data) (data_buffers t)) t) w) in
         if String.eqb name "position"
         then on_this (set_count (of_Z (Z.of_nat (List.length data)) / of_Z 3)%js) w'
         else w';
       result := inr tt |}.
Proof.
  intros Hacc Hget.
  unfold buffers_set, setBuffer, update_buffer, gl_bindBuffer, written,
    bind, get, modify, emit.
  cbn. rewrite Hacc. cbn. rewrite Hget. cbn. rewrite obj_get_update_same, Hget. cbn.
  destruct (String.eqb name "position") eqn:E; cbn; [|reflexivity].
  apply String.eqb_eq in E. subst name.
  rewrite obj_get_update_same, Hget. reflexivity.
Qed.

Lemma setProjection_run (a : num) (w : World num) :
  setProjection a w
  = {| calls := [];
       world := if perspective (camera (this w))
                then on_this (fun t => set_camera (set_c_aspect a (camera t)) t) w
                else w;
       result := inr (projection_of (camera (this w)) (width (this w))
                        (height (this w)) a) |}.
Proof.
  unfold setProjection, projection_of, bind, get, modify, ret. cbn.
  destruct (perspective (camera (this w))) eqn:E; cbn; [|reflexivity].
  reflexivity.
Qed.

Local Arguments uniforms_set : simpl never.
Local Arguments setProjection : simpl never.
Local Arguments projection_of : simpl never.

(** X6: with [resolution] and [projection] registered and an [onResize]
    that does nothing (the default), [resize] returns with [resolution] read
    back as the layout box and [projection] as the matrix derived from the
    camera, the new box and its quotient. *)
Theorem resize_stores_resolution_and_projection
  (w : World num) (ur up : UniformConfig num) :
  mem "resolution" (accessors (uniforms (this w))) = true ->
  mem "projection" (accessors (uniforms (this w))) = true ->
  obj_get "resolution" (data_uniforms (this w)) = Some ur ->
  obj_get "projection" (data_uniforms (this w)) = Some up ->
  onResize (this w) = (fun _ _ _ => []) ->
  let r := resize w in
  let W := offsetWidth (page w) in
  let H := offsetHeight (page w) in
  result r = inr tt
  /\ uniforms_get "resolution" (world r) = Some (VArr [W; H])
  /\ uniforms_get "projection" (world r)
     = Some (VArr (projection_of (camera (this w)) W H (W / H)%js)).
Proof.
  intros Har Hap Hr Hp Hcb. cbn zeta.
  assert (N1 : String.eqb "projection" "resolution" = false) by reflexivity.
  assert (N2 : String.eqb "resolution" "projection" = false) by reflexivity.
  set (Q := fun (w' : World num) =>
    uniforms_get "resolution" w'
    = Some (VArr [offsetWidth (page w); offsetHeight (page w)])
    /\ uniforms_get "projection" w'
       = Some (VArr (projection_of (camera (this w)) (offsetWidth (page w))
                       (offsetHeight (page w))
                       (offsetWidth (page w) / offsetHeight (page w))%js))).
  assert (G : wpt resize (fun _ _ w' => Q w') (fun _ _ _ => False) w).
  { unfold resize. do 9 (cbn zeta; wpt_step; wpt_step). wpt_step.
    eapply wpt_of_run; [apply (uniforms_set_run "resolution" _ ur); assumption|].
    wpt_step.
    eapply wpt_of_run; [apply setProjection_run|]. cbn beta.
    wpt_step.
    eapply wpt_of_run.
    { apply (uniforms_set_run "projection" _ up).
      - cbn. destruct (perspective (camera (this w))); exact Hap.
      - cbn. destruct (perspective (camera (this w))); cbn;
          rewrite obj_get_update_other by exact N1; exact Hp. }
    wpt_step. wpt_step. 
    cbn. destruct (perspective (camera (this w))) eqn:Ep; cbn; rewrite Hcb; cbn.
    all: unfold wpt, Q, uniforms_get; cbn; rewrite Har, Hap; cbn.
    all: rewrite obj_get_update_same, obj_get_update_other, obj_get_update_same,
           obj_get_update_other, Hr, Hp by assumption; cbn.
    all: unfold projection_of; cbn; rewrite ?Ep; repeat split. }
  apply wpt_returns in G. destruct G as ([] & E & G). split; [exact E | exact G].
Qed.

End Writes.

(** ** [updateUniforms] and [updateBuffers] *)

Section Refresh.
Context {num : Type} {NUM : JSNumber num}.

Local Arguments uniforms_set : simpl never.
Local Arguments buffers_set : simpl never.

Lemma uniform_rewrite_run (w : World num) (name : string) :
  accessors (uniforms (this w)) = obj_keys (data_uniforms (this w)) ->
  In name (obj_keys (data_uniforms (this w))) ->
  (uniform <- get (fun w => obj_get name (data_uniforms (this w))) ;;
   match uniform with
   | None => throw (TypeError "Cannot read properties of undefined (reading 'value')")
   | Some uniform => uniforms_set name (u_value uniform)
   end) w
  = {| calls := resent (data_uniforms (this w)) name; world := w; result := inr tt |}.
Proof.
  intros Hacc Hin. destruct (obj_get_keys _ _ Hin) as [u Hu].
  assert (Eu : obj_update name (set_u_value (u_value u)) (data_uniforms (this w))
               = data_uniforms (this w)).
  { apply obj_update_id. intros v Hv. rewrite Hu in Hv. injection Hv as <-.
    destruct u; reflexivity. }
  unfold bind, get. cbn. rewrite Hu. cbn.
  rewrite (uniforms_set_run name _ u) by (rewrite ?Hacc; auto using mem_In).
  unfold on_this. cbn beta. rewrite Eu. cbn. unfold resent. rewrite Hu. f_equal.
  destruct w as [[] ? ?]. reflexivity.
Qed.

(** X7: on an instance whose uniform accessors are the keys of the uniform
    configs, [updateUniforms] returns, sends the stored value of every
    uniform that has a location, in key order and once each, and leaves the
    instance and the page exactly as they were. *)
Theorem updateUniforms_resends (w : World num) :
  accessors (uniforms (this w)) = obj_keys (data_uniforms (this w)) ->
  updateUniforms w
  = {| calls := flat_map (resent (data_uniforms (this w)))
                  (obj_keys (data_uniforms (this w)));
       world := w; result := inr tt |}.
Proof.
  intros Hacc. unfold updateUniforms.
  assert (G : forall names, incl names (obj_keys (data_uniforms (this w))) ->
    forEach names (fun name =>
      uniform <- get (fun w => obj_get name (data_uniforms (this w))) ;;
      match uniform with
      | None => throw (TypeError "Cannot read properties of undefined (reading 'value')")
      | Some uniform => uniforms_set name (u_value uniform)
      end) w
    = {| calls := flat_map (resent (data_uniforms (this w))) names;
         world := w; result := inr tt |}).
  { induction names as [|name rest IH]; intros Hin; [reflexivity|].
    cbn [forEach flat_map].
    rewrite (bind_returns _ _ _ tt)
      by (rewrite uniform_rewrite_run by (auto; apply Hin; left; reflexivity);
          reflexivity).
    rewrite uniform_rewrite_run by (auto; apply Hin; left; reflexivity).
    cbn [result world calls]. rewrite IH by (intros x Hx; apply Hin; right; exact Hx).
    reflexivity. }
  rewrite (bind_returns _ _ _ (obj_keys (data_uniforms (this w)))) by reflexivity.
  cbn [get result world calls app]. rewrite G by apply incl_refl. reflexivity.
Qed.

Lemma obj_get_In {V} (k : string) (v : V) (o : obj V) :
  obj_get k o = Some v -> In k (obj_keys o).
Proof.
  induction o as [|[k' v'] rest IH]; cbn; [discriminate|].
  destruct (String.eqb k k') eqn:E; [apply String.eqb_eq in E; auto | auto].
Qed.

Lemma buffer_rewrite_run (w : World num) (name : string) (b : BufferConfig num) :
  accessors (buffers (this w)) = obj_keys (data_buffers (this w)) ->
  obj_get name (data_buffers (this w)) = Some b ->
  let r := (buffer <- get (fun w => obj_get name (data_buffers (this w))) ;;
            match buffer with
            | None => throw (TypeError "Cannot read properties of undefined (reading 'data')")
            | Some buffer => buffers_set name (b_data buffer)
            end) w in
  result r = inr tt
  /\ calls r = rewritten (data_buffers (this w)) name
  /\ data_buffers (this (world r)) = data_buffers (this w)
  /\ accessors (buffers (this (world r))) = accessors (buffers (this w))
  /\ count (this (world r))
     = if String.eqb name "position"
       then (of_Z (Z.of_nat (List.length (b_data b))) / of_Z 3)%js
       else count (this w).
Proof.
  intros Hacc Hb.
  assert (Eb : obj_update name (set_b_data (b_data b)) (data_buffers (this w))
               = data_buffers (this w)).
  { apply obj_update_id. intros v Hv. rewrite Hb in Hv. injection Hv as <-.
    destruct b; reflexivity. }
  unfold bind, get. cbn. rewrite Hb. cbn.
  rewrite (buffers_set_run name _ b)
    by (rewrite ?Hacc; eauto using mem_In, obj_get_In).
  unfold rewritten. rewrite Hb.
  destruct (String.eqb name "position"); cbn; rewrite Eb; repeat split.
Qed.

(** X8: on an instance whose buffer accessors are the keys of the buffer
    configs, [updateBuffers] returns, sends every buffer's stored data to
    that buffer's own object, in key order and once each, then unbinds;
    the stored data stay as they were and [count] becomes a third of the
    length of the stored positions. *)
Theorem updateBuffers_resends (w : World num) (position : BufferConfig num) :
  accessors (buffers (this w)) = obj_keys (data_buffers (this w)) ->
  obj_get "position" (data_buffers (this w)) = Some position ->
  let r := updateBuffers w in
  result r = inr tt
  /\ calls r = flat_map (rewritten (data_buffers (this w)))
                 (obj_keys (data_buffers (this w)))
               ++ [gl_bindBuffer_ARRAY_BUFFER None]
  /\ data_buffers (this (world r)) = data_buffers (this w)
  /\ count (this (world r))
     = (of_Z (Z.of_nat (List.length (b_data position))) / of_Z 3)%js.
Proof.
  intros Hacc Hpos.
  set (D := data_buffers (this w)) in *.
  set (body := fun name : string =>
    buffer <- get (fun w : World num => obj_get name (data_buffers (this w))) ;;
    match buffer with
    | None => throw (TypeError "Cannot read properties of undefined (reading 'data')")
    | Some buffer => buffers_set name (b_data buffer)
    end).
  assert (G : forall names w0,
    incl names (obj_keys D) ->
    accessors (buffers (this w0)) = obj_keys D -> data_buffers (this w0) = D ->
    let r := forEach names body w0 in
    result r = inr tt
    /\ calls r = flat_map (rewritten D) names
    /\ data_buffers (this (world r)) = D
    /\ count (this (world r))
       = if mem "position" names
         then (of_Z (Z.of_nat (List.length (b_data position))) / of_Z 3)%js
         else count (this w0)).
  { induction names as [|name rest IH]; intros w0 Hin Hacc0 HD; [cbn; auto|].
    destruct (obj_get_keys name D) as [b Hb]; [apply Hin; left; reflexivity|].
    destruct (buffer_rewrite_run w0 name b) as (R1 & C1 & D1 & A1 & N1);
      [rewrite HD; exact Hacc0 | rewrite HD; exact Hb |].
    fold (body name) in R1, C1, D1, A1, N1.
    destruct (IH (world (body name w0))) as (R2 & C2 & D2 & N2);
      [ intros x Hx; apply Hin; right; exact Hx
      | rewrite A1; exact Hacc0 | rewrite D1; exact HD |].
    cbn [forEach flat_map]. cbn zeta.
    rewrite (bind_returns _ _ _ tt) by exact R1. cbn [result world calls].
    rewrite R2, C1, C2, D2, N2, N1, HD. repeat split.
    unfold mem. cbn [existsb]. fold (mem "position" rest).
    rewrite (String.eqb_sym name).
    destruct (String.eqb "position" name) eqn:E; cbn [orb].
    - apply String.eqb_eq in E. subst name.
      assert (b = position) by congruence. subst b.
      destruct (mem "position" rest); reflexivity.
    - destruct (mem "position" rest); reflexivity. }
  destruct (G (obj_keys D) w) as (R & C & HD & N); [apply incl_refl | exact Hacc | reflexivity |].
  rewrite (mem_In "position") in N by (eapply obj_get_In; exact Hpos).
  unfold updateBuffers. cbn zeta.
  rewrite (bind_returns _ _ _ (obj_keys D)) by reflexivity.
  cbn [get result world calls app]. fold body.
  rewrite (bind_returns _ _ _ tt) by exact R.
  unfold setBuffer, gl_bindBuffer, bind, emit, modify. cbn.
  rewrite C, HD, N. repeat split.
Qed.

End Refresh.

(** ** Writes are local *)

Section Locality.
Context {num : Type} {NUM : JSNumber num}.


(** X10: a write through the accessor of a registered buffer returns,
    reads back as the written data, binds the buffer's own object and
    uploads the data to it, in these two calls and no other, and leaves
    that object bound. *)
Theorem buffer_write_read_upload
  (w : World num) (name : string) (b : BufferConfig num) (data : list num) :
  mem name (accessors (buffers (this w))) = true ->
  obj_get name (data_buffers (this w)) = Some b ->
  let r := buffers_set name data w in
  result r = inr tt
  /\ buffers_get name (world r) = Some data
  /\ calls r = [gl_bindBuffer_ARRAY_BUFFER (b_buffer b); gl_bufferData_ARRAY_BUFFER data]
  /\ ARRAY_BUFFER_BINDING (page (world r)) = b_buffer b.
Proof.
  intros Hacc Hb. cbn zeta. rewrite (buffers_set_run name data b) by assumption.
  cbn. unfold buffers_get.
  destruct (String.eqb name "position"); cbn; rewrite Hacc, obj_get_update_same, Hb;
    repeat split.
Qed.

End Locality.

(** ** How construction ends *)

Section Outcomes.
Context {num : Type} {NUM : JSNumber num}.

(** X11: on a page where no frame is pending, an instance that the
    constructor returns has exactly one frame pending, the one on record in
    [animationFrameId]; a construction that throws, at whatever step, leaves
    no frame pending. *)
Theorem construction_requests_one_frame_or_none
  (options : ShaderProgramOptions num) (w : World num) :
  frames (page w) = [] ->
  let r := constructor options w in
  match result r with
  | inr _ => exists id, frames (page (world r)) = [id]
                        /\ animationFrameId (this (world r)) = Some id
  | inl _ => frames (page (world r)) = []
  end.
Proof.
  intros Hw. cbn zeta.
  destruct (constructor_schedule options w Hw) as [_ H].
  destruct (result (constructor options w)) as [e|[]]; [exact H|].
  destruct H as (s & Hs & E). exists (s_next_frame s).
  change (frames (page (world (constructor options w))))
    with (s_frames (sched (world (constructor options w)))).
  change (animationFrameId (this (world (constructor options w))))
    with (s_id (sched (world (constructor options w)))).
  rewrite E. cbn. unfold idle in Hs. rewrite Hs. auto.
Qed.

(** X12: without WebGL the constructor throws "WebGL not supported" right
    after it has asked the new canvas for a context: the canvas is not put
    into the holder, nothing is created, registered or requested, and the
    constructor has assigned nothing. *)
Theorem construction_without_webgl
  (options : ShaderProgramOptions num) (w : World num) :
  webgl_supported (browser w) = false ->
  constructor options w
  = {| calls := [canvas_getContext_webgl (or_default (opt_antialias options) false) false];
       world := w;
       result := inl (Error "WebGL not supported") |}.
Proof.
  intros H. unfold constructor. cbn zeta. unfold bind at 1, get. cbn [result world calls].
  rewrite H. unfold bind at 1, emit. cbn [result world calls negb app].
  reflexivity.
Qed.


End Outcomes.

(** ** Events that do not draw, the names with accessors, the numbers *)

Section QuietEvents.
Context {num : Type} {NUM : JSNumber num}.

Lemma uniforms_set_no_draw name (v : value num) (w : World num) :
  wp (uniforms_set name v) no_draw anything anything w.
Proof. eapply wp_mono; [apply uniforms_set_keeps_count | auto ..]; easy. Qed.

Lemma resize_no_draw (w : World num) : wp resize no_draw anything anything w.
Proof.
  unfold resize, setProjection. wp_auto; try exact I; try reflexivity.
  eapply wp_mono; [apply uniforms_set_no_draw | auto ..]; cbn beta.
  intros _ w1 _. wp_auto.
  all: eapply wp_mono; [apply uniforms_set_no_draw | auto ..]; cbn beta.
  all: intros _ w2 _; wp_auto; apply run_callback_no_draw.
Qed.

Lemma mousemove_no_draw (x y : num) (w : World num) :
  wp (mousemove x y) no_draw anything anything w.
Proof. unfold mousemove. wp_auto. apply uniforms_set_no_draw. Qed.

(** X14: only frames clear and draw: a resize of the window, a move of the
    pointer and a call that user code makes into the instance ([destroy], a
    write through an accessor, [setBuffer]) make no clear and no draw call,
    whatever the state of the instance and whatever [onResize] does. *)
Theorem only_frames_draw (w : World num) :
  (forall ow oh, filter is_draw (calls (dispatch (on_resize ow oh) w)) = [])
  /\ (forall x y, filter is_draw (calls (dispatch (on_mousemove x y) w)) = [])
  /\ (forall a, filter is_draw (calls (dispatch (on_user a) w)) = []).
Proof.
  assert (G : forall e, (forall id, e <> on_frame id) ->
    wp (dispatch e) no_draw anything anything w).
  { intros [id|ow oh|x y|a] N; cbn [dispatch].
    - destruct (N id eq_refl).
    - wp_auto; try exact I. apply resize_no_draw.
    - wp_auto; try exact I. apply mousemove_no_draw.
    - apply run_api_no_draw. }
  repeat split; intros; apply filter_no_draw, G; discriminate.
Qed.

End QuietEvents.

Section AccessorNames.
Context {num : Type} {NUM : JSNumber num}.

Lemma In_mem (k : string) (l : list string) : mem k l = true -> In k l.
Proof.
  unfold mem. intros H. apply existsb_exists in H. destruct H as (x & Hx & E).
  apply String.eqb_eq in E. subst x. exact Hx.
Qed.

Lemma obj_keys_set_In {V} (k k' : string) (v : V) (o : obj V) :
  In k (obj_keys (obj_set k' v o)) <-> k = k' \/ In k (obj_keys o).
Proof.
  unfold obj_keys. induction o as [|[k0 v0] rest IH]; cbn.
  - intuition congruence.
  - destruct (String.eqb k' k0) eqn:E; cbn.
    + apply String.eqb_eq in E. subst k0. intuition congruence.
    + rewrite IH. intuition congruence.
Qed.

Lemma obj_keys_spread_In {V} (k : string) (base over : obj V) :
  In k (obj_keys (obj_spread base over)) <-> In k (obj_keys base) \/ In k (obj_keys over).
Proof.
  unfold obj_spread. revert base.
  induction over as [|[k' v'] rest IH]; intros base; cbn [fold_left fst snd].
  - cbn. tauto.
  - rewrite IH, obj_keys_set_In. cbn. intuition congruence.
Qed.

(** X15: an instance that the constructor returns has an accessor exactly
    for the five default uniform names and the uniform names of the options,
    and for the two default buffer names and the buffer names of the
    options; every name with an accessor has its config record. *)
Theorem constructor_registers_names
  (options : ShaderProgramOptions num) (w : World num) :
  let r := constructor options w in
  result r = inr tt ->
  (forall name,
     mem name (accessors (uniforms (this (world r)))) = true
     <-> In name ["time"; "hasTexture"; "resolution"; "mousemove"; "projection"]
         \/ In name (obj_keys (or_default (opt_uniforms options) [])))
  /\ (forall name,
        mem name (accessors (buffers (this (world r)))) = true
        <-> In name ["position"; "color"]
            \/ In name (obj_keys (or_default (opt_buffers options) [])))
  /\ (forall name,
        mem name (accessors (uniforms (this (world r)))) = true ->
        exists u, obj_get name (data_uniforms (this (world r))) = Some u)
  /\ (forall name,
        mem name (accessors (buffers (this (world r)))) = true ->
        exists b, obj_get name (data_buffers (this (world r))) = Some b).
Proof.
  intros r Hr. destruct (constructor_registers options w) as [_ H].
  fold r in H. rewrite Hr in H. destruct H as (Hb & Hkb & Hu & Hku).
  repeat split.
  - intros H. apply In_mem in H. rewrite Hu in H. apply obj_keys_spread_In in H. exact H.
  - intros H. apply mem_In. rewrite Hu. apply obj_keys_spread_In. exact H.
  - intros H. apply In_mem in H. rewrite Hb in H. apply obj_keys_spread_In in H. exact H.
  - intros H. apply mem_In. rewrite Hb. apply obj_keys_spread_In. exact H.
  - intros name H. apply obj_get_keys. rewrite Hku, <- Hu. apply In_mem, H.
  - intros name H. apply obj_get_keys. rewrite Hkb, <- Hb. apply In_mem, H.
Qed.

End AccessorNames.

Section RealNumbers.

(** X16: over the reals, with [mousemove] registered and a pointer inside
    a box of positive width and height, [mousemove] stores the pair
    [(2 pageX / width - 1, 2 pageY / height - 1)], whose members lie between
    -1 and 1. *)
Theorem mousemove_normalises
  (w : World R) (pageX pageY : R) (u : UniformConfig R) :
  mem "mousemove" (accessors (uniforms (this w))) = true ->
  obj_get "mousemove" (data_uniforms (this w)) = Some u ->
  (0 < width (this w))%R -> (0 < height (this w))%R ->
  (0 <= pageX <= width (this w))%R -> (0 <= pageY <= height (this w))%R ->
  exists x y,
    uniforms_get "mousemove" (world (mousemove pageX pageY w)) = Some (VArr [x; y])
    /\ x = (2 * pageX / width (this w) - 1)%R
    /\ y = (2 * pageY / height (this w) - 1)%R
    /\ (-1 <= x <= 1)%R /\ (-1 <= y <= 1)%R.
Proof.
  intros Hacc Hu Hw Hh HX HY.
  exists (2 * pageX / width (this w) - 1)%R, (2 * pageY / height (this w) - 1)%R.
  split; [|split; [reflexivity|split; [reflexivity|]]].
  - unfold mousemove. unfold bind at 1, get. cbn [result world calls].
    unfold bind at 1. cbn [result world calls].
    rewrite (uniforms_set_run "mousemove" _ u) by assumption.
    unfold uniforms_get. cbn. rewrite Hacc, obj_get_update_same, Hu. cbn.
    do 3 f_equal; [|f_equal]; field; lra.
  - assert (E : forall p s, (0 < s)%R -> (0 <= p <= s)%R ->
                (-1 <= 2 * p / s - 1 <= 1)%R).
    { intros p s Hs Hp.
      assert (0 <= p / s <= 1)%R.
      { split.
        - apply Rmult_le_pos; [lra | left; apply Rinv_0_lt_compat, Hs].
        - apply (Rmult_le_reg_r s); [exact Hs|]. unfold Rdiv.
          rewrite Rmult_assoc, Rinv_l by lra. lra. }
      replace (2 * p / s)%R with (2 * (p / s))%R by (field; lra). lra. }
    split; apply E; assumption.
Qed.


End RealNumbers.

(** ** [createUniforms] and [createBuffers] *)

Section Creation.
Context {num : Type} {NUM : JSNumber num}.






End Creation.

(** ** [createTexture] *)

Section Texture.
Context {num : Type} {NUM : JSNumber num}.

Lemma upload_is_upload type location (v : value num) :
  is_upload (upload type location v) = true.
Proof. destruct type; reflexivity. Qed.

Lemma uniforms_set_only_uploads name (v : value num) (w : World num) :
  wp (uniforms_set name v) only_uploads
     (fun _ w' => texture (this w') = texture (this w)) never w.
Proof.
  unfold uniforms_set, setUniform, update_uniform. wp_auto; try exact I.
  all: apply upload_is_upload.
Qed.

(** X20: [createTexture] asks for an image only when it was given a
    source that is not empty and the driver handed the texture object out:
    with [null] or the empty string it returns after uploading the
    placeholder pixel and leaves every uniform as it was; with a source [s]
    it requests exactly the image [s], once the placeholder is uploaded. *)
Theorem createTexture_loads_a_given_source (src : option string) (w : World num) :
  let r := createTexture src w in
  (forall s, In (image_set_src s) (calls r)
             <-> truthy src = Some s
                 /\ alloc_ok (browser w) (next_handle (page w)) = true)
  /\ (truthy src = None ->
        forall name, uniforms_get name (world r) = uniforms_get name w)
  /\ (alloc_ok (browser w) (next_handle (page w)) = true ->
        result r = inr tt
        /\ texture (this (world r)) = Some (next_handle (page w))
        /\ exists rest,
             calls r = [ gl_createTexture (Some (next_handle (page w)));
                         gl_bindTexture_TEXTURE_2D (next_handle (page w));
                         gl_texImage2D_pixel ] ++ rest).
Proof.
  cbn zeta.
  set (h := next_handle (page w)).
  set (ok := alloc_ok (browser w) h).
  set (P := fun (cs : list (call num)) (w' : World num) =>
    (forall s, In (image_set_src s) cs <-> truthy src = Some s /\ ok = true)
    /\ (truthy src = None -> forall name, uniforms_get name w' = uniforms_get name w)).
  assert (G : wpt (createTexture src)
    (fun cs _ w' => P cs w' /\ ok = true /\ texture (this w') = Some h
                    /\ exists rest, cs = [ gl_createTexture (Some h);
                                           gl_bindTexture_TEXTURE_2D h;
                                           gl_texImage2D_pixel ] ++ rest)
    (fun cs _ w' => P cs w' /\ ok = false) w).
  { unfold createTexture, allocate, loadTexture.
    repeat wpt_step. fold h. fold ok. destruct ok eqn:Hok; cbv beta iota.
    - repeat wpt_step. destruct (truthy src) as [s|] eqn:Hs; cbv beta iota.
      + wpt_step.
        eapply wpt_mono; [apply wpt_of_wp, uniforms_set_only_uploads | |]; cbn beta;
          [| intros ? ? ? [_ []]].
        intros cs [] w1 [U T]. wpt_step. unfold wpt. cbn.
        split; [split; [|discriminate] | split; [reflexivity | split; [exact T | eauto]]].
        intros s'. split.
        * intros [H|[H|[H|H]]]; try discriminate.
          apply in_app_or in H. destruct H as [H|[H|[]]].
          -- rewrite Forall_forall in U. apply U in H. discriminate H.
          -- injection H as ->. auto.
        * intros [E _]. injection E as ->. right. right. right.
          apply in_or_app. right. left. reflexivity.
      + wpt_step. unfold wpt. cbn.
        split; [split | split; [reflexivity | split; [reflexivity | eauto]]].
        * intros s'. split.
          -- intros [H|[H|[H|[]]]]; discriminate.
          -- intros [E _]. discriminate.
        * intros _ name. reflexivity.
    - wpt_step. unfold wpt. cbn. split; [split|reflexivity].
      + intros s'. split.
        * intros [H|[]]. discriminate.
        * intros [_ E]. discriminate.
      + intros _ name. reflexivity. }
  apply wpt_run in G. subst P ok h. cbn beta in G.
  destruct (result (createTexture src w)) as [e|[]].
  - destruct G as ((G1 & G2) & Hok). split; [exact G1|]. split; [exact G2|].
    intros H. congruence.
  - destruct G as ((G1 & G2) & Hok & T & R). split; [exact G1|]. split; [exact G2|].
    intros _. split; [reflexivity|]. split; [exact T | exact R].
Qed.
End Texture.

(** ** More runs on the sample pages *)

Section MoreRuns.

Lemma pending_frames_are_on_record_witness :
  animationFrameId (this (after [on_frame 1] ready)) = Some 2.
Proof.
  apply (pending_frames_are_on_record no_options [on_frame 1] (page0 driver)
           eq_refl 2).
  vm_compute. auto.
Defined.

Lemma destroy_between_events_stops_the_loop_witness :
  let w' := after [on_frame 2; on_resize 640 480]%float
              (world (destroy (after [on_frame 1] ready))) in
  frames (page w') = []
  /\ forall id, dispatch (on_frame id) w' = {| calls := []; world := w'; result := inr tt |}.
Proof.
  exact (destroy_between_events_stops_the_loop no_options [on_frame 1]
           [on_frame 2; on_resize 640 480]%float (page0 driver) eq_refl).
Defined.

Lemma resize_stores_resolution_and_projection_witness :
  let r := resize ready in
  result r = inr tt
  /\ uniforms_get "resolution" (world r)
     = Some (VArr [offsetWidth (page ready); offsetHeight (page ready)])
  /\ uniforms_get "projection" (world r)
     = Some (VArr (projection_of (camera (this ready)) (offsetWidth (page ready))
                     (offsetHeight (page ready))
                     (offsetWidth (page ready) / offsetHeight (page ready))%js)).
Proof.
  eapply (resize_stores_resolution_and_projection ready); vm_compute; reflexivity.
Defined.

Lemma updateUniforms_resends_witness :
  updateUniforms ready
  = {| calls := flat_map (resent (data_uniforms (this ready)))
                  (obj_keys (data_uniforms (this ready)));
       world := ready; result := inr tt |}.
Proof. apply (updateUniforms_resends ready). vm_compute. reflexivity. Defined.

Lemma updateBuffers_resends_witness :
  let w := world (buffers_set "position" [1; 2; 3; 4; 5; 6]%float ready) in
  let r := updateBuffers w in
  result r = inr tt
  /\ calls r = flat_map (rewritten (data_buffers (this w)))
                 (obj_keys (data_buffers (this w)))
               ++ [gl_bindBuffer_ARRAY_BUFFER None]
  /\ data_buffers (this (world r)) = data_buffers (this w)
  /\ count (this (world r))
     = (of_Z (Z.of_nat (List.length [1; 2; 3; 4; 5; 6]%float)) / of_Z 3)%js.
Proof.
  apply (updateBuffers_resends
           (world (buffers_set "position" [1; 2; 3; 4; 5; 6]%float ready))
           {| b_size := 3%float; b_data := [1; 2; 3; 4; 5; 6]%float;
              b_buffer := Some 4 |});
    vm_compute; reflexivity.
Defined.

Lemma buffer_write_read_upload_witness :
  let r := buffers_set "color" [1; 0; 0; 1]%float ready in
  result r = inr tt
  /\ buffers_get "color" (world r) = Some [1; 0; 0; 1]%float
  /\ calls r = [gl_bindBuffer_ARRAY_BUFFER (Some 5);
                gl_bufferData_ARRAY_BUFFER [1; 0; 0; 1]%float]
  /\ ARRAY_BUFFER_BINDING (page (world r)) = Some 5.
Proof.
  apply (buffer_write_read_upload ready "color"
           {| b_size := 4%float; b_data := []; b_buffer := Some 5 |}
           [1; 0; 0; 1]%float);
    vm_compute; reflexivity.
Defined.

Lemma construction_requests_one_frame_or_none_witness :
  let r := constructor no_options (page0 (num := PrimFloat.float) driver) in
  match result r with
  | inr _ => exists id, frames (page (world r)) = [id]
                        /\ animationFrameId (this (world r)) = Some id
  | inl _ => frames (page (world r)) = []
  end.
Proof.
  exact (construction_requests_one_frame_or_none no_options (page0 driver) eq_refl).
Defined.

Lemma construction_without_webgl_witness :
  constructor no_options (page0 driver_without_webgl)
  = {| calls := [canvas_getContext_webgl false false];
       world := page0 driver_without_webgl;
       result := inl (Error "WebGL not supported") |}.
Proof.
  exact (construction_without_webgl no_options (page0 driver_without_webgl) eq_refl).
Defined.

Lemma constructor_registers_names_witness :
  (forall name,
     mem name (accessors (uniforms (this ready))) = true
     <-> In name ["time"; "hasTexture"; "resolution"; "mousemove"; "projection"]
         \/ In name [])
  /\ (forall name,
        mem name (accessors (buffers (this ready))) = true
        <-> In name ["position"; "color"] \/ In name [])
  /\ (forall name,
        mem name (accessors (uniforms (this ready))) = true ->
        exists u, obj_get name (data_uniforms (this ready)) = Some u)
  /\ (forall name,
        mem name (accessors (buffers (this ready))) = true ->
        exists b, obj_get name (data_buffers (this ready)) = Some b).
Proof.
  apply (constructor_registers_names no_options (page0 driver)).
  vm_compute. reflexivity.
Defined.

Lemma mousemove_normalises_witness :
  exists x y,
    uniforms_get "mousemove" (world (mousemove 200%R 450%R laid_out))
    = Some (VArr [x; y])
    /\ x = (2 * 200 / width (this laid_out) - 1)%R
    /\ y = (2 * 450 / height (this laid_out) - 1)%R
    /\ (-1 <= x <= 1)%R /\ (-1 <= y <= 1)%R.
Proof.
  eapply (mousemove_normalises laid_out 200%R 450%R).
  - reflexivity.
  - reflexivity.
  - change (0 < 800)%R. lra.
  - change (0 < 600)%R. lra.
  - change (0 <= 200 <= 800)%R. lra.
  - change (0 <= 450 <= 600)%R. lra.
Defined.





End MoreRuns.
